(** * googleTrendsAPI/googleTrends.py: the token protocol of [GoogleTrendsAPI]

    A shallow embedding of the methods [_get_data], [build_payload],
    [_tokens], [interest_over_time], [interest_by_region] and
    [related_queries] of the class [GoogleTrendsAPI], with the properties
    of the widget resolver and of the data fetchers proved about it.

    Python values that come out of [json.loads] are the inductive type
    [json]; a [dict] is a [gmap string json].  Such values form a tree (the
    parser never shares a sub-object), and the three widget attributes of
    the instance hold objects with pairwise different titles, so that an
    in-place update of one object is an update of the one place that
    holds it: values are passed and returned.

    A method is a function from the instance to an outcome and the
    instance afterwards: an exception leaves the attributes assigned
    before it was raised. *)

From Stdlib Require Import ZArith String Ascii Lia.
From Stdlib Require Import Floats.SpecFloat.
From stdpp Require Import gmap strings list fin_maps pretty.

#[local] Set Warnings "-register-all".

Open Scope Z_scope.
Open Scope string_scope.
Open Scope list_scope.

(** ** Values *)

Inductive json : Type :=
| JNull
| JBool (b : bool)
| JInt (n : Z)
| JFloat (f : spec_float)
| JStr (s : string)
| JList (l : list json)
| JObj (m : gmap string json).

(** The exceptions the modelled code can raise.  [ResponseError] is the
    class declared at the top of the module; the others are built in. *)
Record Response : Type := mkResponse {
  status_code : Z;
  (* [headers['Content-Type']]; [None] when the header is absent *)
  content_type : option string;
  text : string
}.

Inductive exn : Type :=
| ResponseError (message : string) (response : Response)
| KeyError
| IndexError
| TypeError
| ValueError
| OverflowError.

Inductive result (A : Type) : Type :=
| Ok (a : A)
| Raise (e : exn).
Arguments Ok {A} a.
Arguments Raise {A} e.

#[global] Instance result_ret : MRet result := fun A a => Ok a.
#[global] Instance result_bind : MBind result := fun A B f r =>
  match r with
  | Ok a => f a
  | Raise e => Raise e
  end.
#[global] Instance result_fmap : FMap result := fun A B f r =>
  match r with
  | Ok a => Ok (f a)
  | Raise e => Raise e
  end.

(** [for x in l: x = body(x)], stopping at the first exception. *)
Fixpoint mapR {A B : Type} (body : A -> result B) (l : list A) : result (list B) :=
  match l with
  | [] => Ok []
  | x :: l' =>
      match body x with
      | Ok y =>
          match mapR body l' with
          | Ok ys => Ok (y :: ys)
          | Raise e => Raise e
          end
      | Raise e => Raise e
      end
  end.

(** ** Built-in operations of Python on decoded values *)

Module Py.

(** [needle in hay] on strings *)
Fixpoint contains (needle hay : string) : bool :=
  String.prefix needle hay ||
  match hay with
  | EmptyString => false
  | String _ hay' => contains needle hay'
  end.

Fixpoint drop_chars (n : nat) (s : string) : string :=
  match n, s with
  | O, _ => s
  | S n', String _ s' => drop_chars n' s'
  | S _, EmptyString => EmptyString
  end.

(** [s[k:]]: a negative [k] counts from the end *)
Definition slice_from (k : Z) (s : string) : string :=
  if (0 <=? k)%Z then drop_chars (Z.to_nat k) s
  else drop_chars (Z.to_nat (Z.max 0 (Z.of_nat (String.length s) + k))) s.

(** [v == s] for a string literal [s] *)
Definition eq_str (v : json) (s : string) : bool :=
  match v with
  | JStr t => String.eqb t s
  | _ => false
  end.

(** [v[k]] for a string key *)
Definition getitem (v : json) (k : string) : result json :=
  match v with
  | JObj m =>
      match m !! k with
      | Some x => Ok x
      | None => Raise KeyError
      end
  | _ => Raise TypeError
  end.

(** [v[i]] for a non-negative integer literal; a decoded [dict] has
    string keys only *)
Definition getindex (v : json) (i : nat) : result json :=
  match v with
  | JList l =>
      match l !! i with
      | Some x => Ok x
      | None => Raise IndexError
      end
  | JStr s =>
      match String.get i s with
      | Some c => Ok (JStr (String c EmptyString))
      | None => Raise IndexError
      end
  | JObj _ => Raise KeyError
  | _ => Raise TypeError
  end.

(** [v[k] = x] *)
Definition setitem (v : json) (k : string) (x : json) : result json :=
  match v with
  | JObj m => Ok (JObj (<[k:=x]> m))
  | _ => Raise TypeError
  end.

(** [del v[k]] *)
Definition delitem (v : json) (k : string) : result json :=
  match v with
  | JObj m =>
      match m !! k with
      | Some _ => Ok (JObj (delete k m))
      | None => Raise KeyError
      end
  | _ => Raise TypeError
  end.

Fixpoint chars (s : string) : list json :=
  match s with
  | EmptyString => []
  | String c s' => JStr (String c EmptyString) :: chars s'
  end.

(** the items [for x in v] runs over *)
Definition iter (v : json) : result (list json) :=
  match v with
  | JList l => Ok l
  | JObj m => Ok ((fun kv => JStr kv.1) <$> map_to_list m)
  | JStr s => Ok (chars s)
  | _ => Raise TypeError
  end.

(** [for d in v: body], where [body] updates [d] in place.  The items of
    a list are updated where they are; the keys of a [dict] and the
    characters of a string are immutable, so that the loop can only
    raise on them. *)
Definition for_in_place (body : json -> result json) (v : json) : result json :=
  match v with
  | JList l => JList <$> mapR body l
  | _ => items ← iter v; _ ← mapR body items; Ok v
  end.

(** [int(f)] on a float: truncation towards zero *)
Definition int_of_float (f : spec_float) : result Z :=
  match f with
  | S754_zero _ => Ok 0
  | S754_infinity _ => Raise OverflowError
  | S754_nan => Raise ValueError
  | S754_finite s m e =>
      let a := if (0 <=? e)%Z then Z.shiftl (Z.pos m) e else Z.shiftr (Z.pos m) (- e) in
      Ok (if s then - a else a)
  end.

End Py.

(** ** The standard library and the network

    [json.loads], [json.dumps] and [int] on text belong to Python, and the
    service belongs to Google: the development is parametric in them.  The
    answer of the service may depend on everything the session has sent
    before (cookies, quota). *)

Inductive Verb : Type := Get | Post.

Record Request : Type := mkRequest {
  (* [self.ses.get] or [self.ses.post] *)
  req_verb : Verb;
  req_url : string;
  (* the keyword arguments handed to [requests]: [params], [data] *)
  req_kwargs : gmap string json
}.

Class Runtime : Type := {
  (* [json.loads]; [None] is its [ValueError] *)
  json_loads : string -> option json;
  json_dumps : json -> string;
  (* [int(s)] on text; [None] is its [ValueError] *)
  int_of_text : string -> option Z;
  (* the response to a request, given the requests sent so far *)
  service : list Request -> Request -> Response
}.

(** ** The instance *)

Record GoogleTrendsAPI : Type := mkAPI {
  ses : list Request;
  tz : Z;
  hl : string;
  geo : string;
  kw_list : list string;
  interest_over_time_widget : json;
  interest_by_region_widget : json;
  related_queries_widget_list : list json
}.

Definition GET_METHOD := "get".
Definition POST_METHOD := "post".

Definition GENERAL_URL := "https://www.google.com/trends/api/explore".
Definition INTEREST_OVER_TIME_URL := "https://www.google.com/trends/api/widgetdata/multiline".
Definition INTEREST_BY_REGION_URL := "https://www.google.com/trends/api/widgetdata/comparedgeo".
Definition RELATED_QUERIES_URL := "https://www.google.com/trends/api/widgetdata/relatedsearches".

(** A method: the outcome and the instance afterwards. *)
Definition M (A : Type) : Type := GoogleTrendsAPI -> result A * GoogleTrendsAPI.

#[global] Instance M_ret : MRet M := fun A a self => (Ok a, self).
#[global] Instance M_bind : MBind M := fun A B f c self =>
  match c self with
  | (Ok a, self') => f a self'
  | (Raise e, self') => (Raise e, self')
  end.

Definition lift {A : Type} (r : result A) : M A := fun self => (r, self).
Definition attr {A : Type} (f : GoogleTrendsAPI -> A) : M A := fun self => (Ok (f self), self).
Definition assign (f : GoogleTrendsAPI -> GoogleTrendsAPI) : M unit := fun self => (Ok tt, f self).

Definition set_ses (x : list Request) (self : GoogleTrendsAPI) : GoogleTrendsAPI :=
  mkAPI x (tz self) (hl self) (geo self) (kw_list self)
    (interest_over_time_widget self) (interest_by_region_widget self)
    (related_queries_widget_list self).
Definition set_geo (x : string) (self : GoogleTrendsAPI) : GoogleTrendsAPI :=
  mkAPI (ses self) (tz self) (hl self) x (kw_list self)
    (interest_over_time_widget self) (interest_by_region_widget self)
    (related_queries_widget_list self).
Definition set_kw_list (x : list string) (self : GoogleTrendsAPI) : GoogleTrendsAPI :=
  mkAPI (ses self) (tz self) (hl self) (geo self) x
    (interest_over_time_widget self) (interest_by_region_widget self)
    (related_queries_widget_list self).
Definition set_interest_over_time_widget (x : json) (self : GoogleTrendsAPI) : GoogleTrendsAPI :=
  mkAPI (ses self) (tz self) (hl self) (geo self) (kw_list self)
    x (interest_by_region_widget self) (related_queries_widget_list self).
Definition set_interest_by_region_widget (x : json) (self : GoogleTrendsAPI) : GoogleTrendsAPI :=
  mkAPI (ses self) (tz self) (hl self) (geo self) (kw_list self)
    (interest_over_time_widget self) x (related_queries_widget_list self).
Definition set_related_queries_widget_list (x : list json) (self : GoogleTrendsAPI) : GoogleTrendsAPI :=
  mkAPI (ses self) (tz self) (hl self) (geo self) (kw_list self)
    (interest_over_time_widget self) (interest_by_region_widget self) x.

(** The widget attributes of the instance: the Widget Set. *)
Definition widget_set (self : GoogleTrendsAPI) : json * json * list json :=
  (interest_over_time_widget self, interest_by_region_widget self,
   related_queries_widget_list self).

(** ** The methods *)

Section Methods.
Context `{Runtime}.

(** [int(v)] *)
Definition int (v : json) : result Z :=
  match v with
  | JInt n => Ok n
  | JBool b => Ok (if b then 1 else 0)
  | JFloat f => Py.int_of_float f
  | JStr s =>
      match int_of_text s with
      | Some n => Ok n
      | None => Raise ValueError
      end
  | _ => Raise TypeError
  end.

(** the test on [response.headers['Content-Type']] *)
Definition is_json_type (ct : string) : bool :=
  Py.contains "application/json" ct
  || Py.contains "application/javascript" ct
  || Py.contains "text/javascript" ct.

Definition failure_message (response : Response) : string :=
  "The request failed: Google returned a response with code "
    +:+ pretty (status_code response) +:+ ".".

Definition _get_data (url method : string) (trim_chars : Z)
    (kwargs : gmap string json) : M json := fun self =>
  let rq := mkRequest (if String.eqb method POST_METHOD then Post else Get) url kwargs in
  let response := service (ses self) rq in
  let self := set_ses (ses self ++ [rq]) self in
  match content_type response with
  | None => (Raise KeyError, self)
  | Some ct =>
      if is_json_type ct then
        let content := Py.slice_from trim_chars (text response) in
        match json_loads content with
        | Some v => (Ok v, self)
        | None => (Raise ValueError, self)
        end
      else (Raise (ResponseError (failure_message response) response), self)
  end.

(** *** The widget resolver *)

(** the body of [for widget in widget_dict], with the local
    [first_region_token] passed along *)
Definition tokens_body (widget : json) (first_region_token : bool) : M bool :=
  t ← lift (Py.getitem widget "title");
  _ ← (if Py.eq_str t "Interest over time"
       then assign (set_interest_over_time_widget widget) else mret tt);
  t ← lift (Py.getitem widget "title");
  first_region_token ←
    (if Py.eq_str t "Interest by region" && first_region_token
     then _ ← assign (set_interest_by_region_widget widget); mret false
     else mret first_region_token);
  t ← lift (Py.getitem widget "title");
  first_region_token ←
    (if Py.eq_str t "Interest by subregion" && first_region_token
     then _ ← assign (set_interest_by_region_widget widget); mret false
     else mret first_region_token);
  t ← lift (Py.getitem widget "title");
  _ ← (if Py.eq_str t "Related queries"
       then self ← attr related_queries_widget_list;
            assign (set_related_queries_widget_list (self ++ [widget]))
       else mret tt);
  mret first_region_token.

Fixpoint tokens_loop (widgets : list json) (first_region_token : bool) : M unit :=
  match widgets with
  | [] => mret tt
  | widget :: widgets' =>
      first_region_token ← tokens_body widget first_region_token;
      tokens_loop widgets' first_region_token
  end.

(** the request of [_tokens] and the ['widgets'] entry of its answer *)
Definition tokens_fetch (token_payload : json) : M json :=
  data ← _get_data GENERAL_URL GET_METHOD 4 {[ "params" := token_payload ]};
  lift (Py.getitem data "widgets").

Definition _tokens (token_payload : json) : M unit :=
  widget_dict ← tokens_fetch token_payload;
  _ ← assign (set_related_queries_widget_list []);
  widgets ← lift (Py.iter widget_dict);
  tokens_loop widgets true.

Definition keyword_payload (timeframe geo : string) (kw : string) : json :=
  JObj (<["keyword" := JStr kw]> (<["time" := JStr timeframe]> {[ "geo" := JStr geo ]})).

Definition build_payload (kw_list' : list string) (cat : Z)
    (timeframe geo' gprop : string) : M unit :=
  _ ← assign (set_kw_list kw_list');
  _ ← assign (set_geo geo');
  self_hl ← attr hl;
  self_tz ← attr tz;
  self_kw_list ← attr kw_list;
  self_geo ← attr geo;
  (* [token_payload['req']['comparisonItem'].append(keyword_payload)] *)
  let comparisonItem :=
    foldl (fun items kw => (items ++ [keyword_payload timeframe self_geo kw])%list)
      [] self_kw_list in
  let req := JObj (<["comparisonItem" := JList comparisonItem]>
                     {[ "category" := JInt cat ]}) in
  let token_payload :=
    JObj (<["hl" := JStr self_hl]> (<["tz" := JInt self_tz]>
           (<["req" := JStr (json_dumps req)]> {[ "property" := JStr gprop ]}))) in
  _tokens token_payload.

(** *** The data fetchers *)

(** [{'req': json.dumps(widget['request']), 'token': widget['token'],
    'tz': self.tz}], the entries evaluated in this order *)
Definition widget_payload (widget : json) : M json :=
  request ← lift (Py.getitem widget "request");
  token ← lift (Py.getitem widget "token");
  self_tz ← attr tz;
  mret (JObj (<["req" := JStr (json_dumps request)]>
               (<["token" := token]> {[ "tz" := JInt self_tz ]}))).

(** the body of [for d in timelineData] *)
Definition clean_timeline (d : json) : result json :=
  d ← Py.delitem d "formattedValue";
  t ← Py.getitem d "time";
  t ← int t;
  d ← Py.setitem d "time" (JInt t);
  v ← Py.getitem d "value";
  v ← Py.getindex v 0;
  v ← int v;
  Py.setitem d "value" (JInt v).

(** the request of [interest_over_time] and the
    [[u'default'][u'timelineData]] entry of its answer *)
Definition timeline_fetch : M json :=
  widget ← attr interest_over_time_widget;
  over_time_payload ← widget_payload widget;
  data ← _get_data INTEREST_OVER_TIME_URL GET_METHOD 5 {[ "params" := over_time_payload ]};
  lift (d ← Py.getitem data "default"; Py.getitem d "timelineData").

Definition interest_over_time : M json :=
  timelineData ← timeline_fetch;
  lift (Py.for_in_place clean_timeline timelineData).

(** the body of [for d in geoMapData] *)
Definition clean_geo (d : json) : result json :=
  d ← Py.delitem d "maxValueIndex";
  d ← Py.delitem d "coordinates";
  d ← Py.delitem d "formattedValue";
  v ← Py.getitem d "value";
  v ← Py.getindex v 0;
  v ← int v;
  Py.setitem d "value" (JInt v).

(** an item of a list that was updated in place, seen through the list *)
Definition stored_at (i : nat) (x : json) (v : json) : json :=
  match v with
  | JList l => JList (<[i:=x]> l)
  | _ => v
  end.

(** the same for an entry of a [dict] *)
Definition stored_in (k : string) (x : json) (v : json) : json :=
  match v with
  | JObj m => JObj (<[k:=x]> m)
  | _ => v
  end.

(** [self.interest_by_region_widget['request']['resolution'] = resolution]:
    the request object is updated in place, and the widget of the
    instance is the one that holds it *)
Definition patch_resolution (resolution : string) : M unit :=
  widget ← attr interest_by_region_widget;
  request ← lift (Py.getitem widget "request");
  request ← lift (Py.setitem request "resolution" (JStr resolution));
  assign (set_interest_by_region_widget (stored_in "request" request widget)).

Definition interest_by_region (resolution : string) : M json :=
  self_geo ← attr geo;
  _ ← (if String.eqb self_geo "" then patch_resolution resolution else mret tt);
  widget ← attr interest_by_region_widget;
  region_payload ← widget_payload widget;
  data ← _get_data INTEREST_BY_REGION_URL GET_METHOD 5 {[ "params" := region_payload ]};
  geoMapData ← lift (d ← Py.getitem data "default"; Py.getitem d "geoMapData");
  lift (Py.for_in_place clean_geo geoMapData).

(** the body of [for kw in rankedList[0][u'rankedKeyword']] *)
Definition clean_top (kw : json) : result json :=
  v ← Py.getitem kw "value";
  v ← int v;
  kw ← Py.setitem kw "value" (JInt v);
  kw ← Py.delitem kw "link";
  Py.delitem kw "formattedValue".

(** the body of [for kw in rankedList[1][u'rankedKeyword']] *)
Definition clean_rising (kw : json) : result json :=
  kw ← Py.delitem kw "link";
  v ← Py.getitem kw "formattedValue";
  kw ← Py.setitem kw "value" v;
  Py.delitem kw "formattedValue".

(** the two loops and the renaming at the end of the body of
    [related_queries] *)
Definition clean_ranked (rankedList : json) : result json :=
  top ← Py.getindex rankedList 0;
  entries ← Py.getitem top "rankedKeyword";
  entries ← Py.for_in_place clean_top entries;
  let rankedList := stored_at 0 (stored_in "rankedKeyword" entries top) rankedList in
  rising ← Py.getindex rankedList 1;
  entries ← Py.getitem rising "rankedKeyword";
  entries ← Py.for_in_place clean_rising entries;
  let rankedList := stored_at 1 (stored_in "rankedKeyword" entries rising) rankedList in
  rising ← Py.getindex rankedList 1;
  entries ← Py.getitem rising "rankedKeyword";
  rising ← Py.getindex rankedList 1;
  rising ← Py.setitem rising "risingKeywords" entries;
  let rankedList := stored_at 1 rising rankedList in
  rising ← Py.getindex rankedList 1;
  rising ← Py.delitem rising "rankedKeyword";
  Ok (stored_at 1 rising rankedList).

(** [request_json['request']['restriction']['complexKeywordsRestriction']
    ['keyword'][0]['value']] *)
Definition widget_keyword (request_json : json) : result json :=
  r ← Py.getitem request_json "request";
  r ← Py.getitem r "restriction";
  r ← Py.getitem r "complexKeywordsRestriction";
  r ← Py.getitem r "keyword";
  r ← Py.getindex r 0;
  Py.getitem r "value".

(** The body of [for request_json in self.related_queries_widget_list].
    It ends in [return rankedList]: the outcome is [Some] of the value
    returned, where [None] would let the loop go on.  The three entries
    of [related_payload] are assigned in every turn, so that the
    dictionary made before the loop holds them and nothing else. *)
Definition ranked_fetch (request_json : json) : M json :=
  kw ← lift (widget_keyword request_json);
  related_payload ← widget_payload request_json;
  data ← _get_data RELATED_QUERIES_URL GET_METHOD 5 {[ "params" := related_payload ]};
  lift (d ← Py.getitem data "default"; Py.getitem d "rankedList").

Definition related_body (request_json : json) : M (option json) :=
  rankedList ← ranked_fetch request_json;
  rankedList ← lift (clean_ranked rankedList);
  mret (Some rankedList).

(** [for x in l: body], left by the first [return] *)
Fixpoint for_return (body : json -> M (option json)) (l : list json) : M (option json) :=
  match l with
  | [] => mret None
  | x :: l' =>
      r ← body x;
      match r with
      | Some v => mret (Some v)
      | None => for_return body l'
      end
  end.

(** a method that falls off its end returns [None] *)
Definition related_queries : M json :=
  widgets ← attr related_queries_widget_list;
  r ← for_return related_body widgets;
  mret (default JNull r).

End Methods.

(** ** The methods outside the token protocol *)

Definition TRENDING_SEARCHES_URL := "https://trends.google.com/trends/hottrends/hotItems".
Definition TOP_CHARTS_URL := "https://trends.google.com/trends/topcharts/chart".
Definition SUGGESTIONS_URL := "https://www.google.com/trends/api/autocomplete/".

Section OtherMethods.
Context `{Runtime}.

Definition trending_searches : M json :=
  let forms :=
    JObj {[ "ajax" := JInt 1; "pn" := JStr "p1"; "htd" := JStr ""; "htv" := JStr "l" ]} in
  data ← _get_data TRENDING_SEARCHES_URL POST_METHOD 0 {[ "data" := forms ]};
  lift (Py.getitem data "trendsByDateList").

Definition top_charts (date cid : json) (geo' cat : string) : M json :=
  let chart_payload :=
    JObj (<["ajax" := JInt 1]> (<["lp" := JInt 1]> (<["geo" := JStr geo']>
           (<["date" := date]> (<["cat" := JStr cat]> {[ "cid" := cid ]}))))) in
  data ← _get_data TOP_CHARTS_URL POST_METHOD 0 {[ "params" := chart_payload ]};
  lift (d ← Py.getitem data "data"; Py.getitem d "entityList").

(** [urllib.quote] is the parameter [quote] *)
Definition suggestions (quote : string -> string) (keyword : string) : M json :=
  let kw_param := quote keyword in
  self_hl ← attr hl;
  let parameters := JObj {[ "hl" := JStr self_hl ]} in
  data ← _get_data (SUGGESTIONS_URL +:+ kw_param) GET_METHOD 5 {[ "params" := parameters ]};
  lift (d ← Py.getitem data "default"; Py.getitem d "topics").

(** the part of [interest_by_region] before its loop: the patch, the
    request and the [[u'default'][u'geoMapData']] entry of the answer *)
Definition geo_fetch (resolution : string) : M json :=
  self_geo ← attr geo;
  _ ← (if String.eqb self_geo "" then patch_resolution resolution else mret tt);
  widget ← attr interest_by_region_widget;
  region_payload ← widget_payload widget;
  data ← _get_data INTEREST_BY_REGION_URL GET_METHOD 5 {[ "params" := region_payload ]};
  lift (d ← Py.getitem data "default"; Py.getitem d "geoMapData").

End OtherMethods.

(** *** The form of [_connect]

    The [input] tags of the login form, as the markup parser hands them
    over, are their attributes. *)

(** [if u.has_attr('value') and u.has_attr('name'): form_data[u['name']] = u['value']] *)
Definition scrape (form_data : gmap string string) (u : gmap string string)
    : gmap string string :=
  match u !! "value", u !! "name" with
  | Some value, Some name => <[name := value]> form_data
  | _, _ => form_data
  end.

(** [form_data] as [_connect] posts it *)
Definition form_data (soup_login : list (gmap string string)) (username password : string)
    : gmap string string :=
  let form_data := foldl scrape ∅ soup_login in
  let form_data := <["Email" := username]> form_data in
  <["Passwd" := password]> form_data.

(** ** The vocabulary of the claims *)

(** [needle] occurs in [hay] *)
Definition occurs_in (needle hay : string) : Prop :=
  exists pre post, hay = pre +:+ needle +:+ post.

(** the content-type names one of the three accepted types *)
Definition json_content_type (ct : string) : Prop :=
  occurs_in "application/json" ct
  \/ occurs_in "application/javascript" ct
  \/ occurs_in "text/javascript" ct.

(** the outcome of [json.loads(content)] *)
Definition parsed `{Runtime} (content : string) : result json :=
  match json_loads content with
  | Some v => Ok v
  | None => Raise ValueError
  end.

(** the request [_get_data] sends *)
Definition sent (url method : string) (kwargs : gmap string json) : Request :=
  mkRequest (if String.eqb method POST_METHOD then Post else Get) url kwargs.

(** [widget['title'] == s] holds *)
Definition title_is (s : string) (widget : json) : bool :=
  match Py.getitem widget "title" with
  | Ok t => Py.eq_str t s
  | Raise _ => false
  end.

Definition region_title (widget : json) : bool :=
  title_is "Interest by region" widget || title_is "Interest by subregion" widget.

(** [widget['title']] does not raise *)
Definition titled (widget : json) : Prop :=
  exists t, Py.getitem widget "title" = Ok t.

(** one turn of the loop on a widget that has a title *)
Definition classified (widget : json) (first_region_token : bool)
    (self : GoogleTrendsAPI) : GoogleTrendsAPI :=
  let self :=
    if title_is "Interest over time" widget
    then set_interest_over_time_widget widget self else self in
  let self :=
    if region_title widget && first_region_token
    then set_interest_by_region_widget widget self else self in
  if title_is "Related queries" widget
  then set_related_queries_widget_list (related_queries_widget_list self ++ [widget]) self
  else self.

(** [{'keyword': kw, 'time': timeframe, 'geo': geo}] *)
Definition comparison_item (timeframe geo kw : string) : json :=
  JObj {[ "keyword" := JStr kw; "time" := JStr timeframe; "geo" := JStr geo ]}.

(** [{hl, tz, req: {comparisonItem, category}, property}] with [req] as the
    text [json.dumps] makes of it *)
Definition token_request `{Runtime} (self_hl : string) (self_tz : Z)
    (kws : list string) (cat : Z) (timeframe geo gprop : string) : json :=
  let req :=
    JObj {[ "comparisonItem" := JList (comparison_item timeframe geo <$> kws);
            "category" := JInt cat ]} in
  JObj {[ "hl" := JStr self_hl; "tz" := JInt self_tz;
          "req" := JStr (json_dumps req); "property" := JStr gprop ]}.

(** [out] is the record [d] of [timelineData] with [formattedValue] absent,
    [time] replaced by its integer coercion, [value] replaced by the
    integer coercion of the one element of its sequence, and every other
    field as it was. *)
Definition timeline_record `{Runtime} (d out : json) : Prop :=
  exists (m m' : gmap string json) (t v : json) (ti vi : Z),
    d = JObj m /\ out = JObj m'
    /\ is_Some (m !! "formattedValue")
    /\ m !! "time" = Some t /\ int t = Ok ti
    /\ m !! "value" = Some (JList [v]) /\ int v = Ok vi
    /\ m' !! "formattedValue" = None
    /\ m' !! "time" = Some (JInt ti)
    /\ m' !! "value" = Some (JInt vi)
    /\ (forall k, k <> "formattedValue" -> k <> "time" -> k <> "value" ->
                  m' !! k = m !! k).

(** [out] is the entry [kw] of the top list with [value] coerced to an
    integer and [link] and [formattedValue] deleted. *)
Definition top_entry `{Runtime} (kw out : json) : Prop :=
  exists (m : gmap string json) (v : json) (n : Z),
    kw = JObj m
    /\ m !! "value" = Some v /\ int v = Ok n
    /\ is_Some (m !! "link") /\ is_Some (m !! "formattedValue")
    /\ out = JObj (delete "formattedValue" (delete "link" (<["value" := JInt n]> m))).

(** [out] is the entry [kw] of the rising list with [link] deleted,
    [value] replaced by what [formattedValue] held, and [formattedValue]
    deleted. *)
Definition rising_entry (kw out : json) : Prop :=
  exists (m : gmap string json) (fv : json),
    kw = JObj m
    /\ is_Some (m !! "link") /\ m !! "formattedValue" = Some fv
    /\ out = JObj (delete "formattedValue" (<["value" := fv]> (delete "link" m))).

(** the requests [related_queries] sends for the widget [request_json]:
    none when the keyword or an entry of the payload cannot be read, and
    one otherwise *)
Definition related_requests `{Runtime} (request_json : json) (self : GoogleTrendsAPI)
    : list Request :=
  match widget_keyword request_json,
        Py.getitem request_json "request", Py.getitem request_json "token" with
  | Ok _, Ok request, Ok token =>
      [mkRequest Get RELATED_QUERIES_URL
         {[ "params" := JObj {[ "req" := JStr (json_dumps request);
                                "token" := token; "tz" := JInt (tz self) ]} ]}]
  | _, _, _ => []
  end.

(** the method [c] leaves the three widget attributes as they are,
    whatever its outcome *)
Definition keeps_widgets {A : Type} (c : M A) : Prop :=
  forall self, widget_set (c self).2 = widget_set self.

(** ** The vocabulary of the further properties *)

(** the attributes of the instance that hold the query context *)
Definition context (self : GoogleTrendsAPI) : Z * string * string * list string :=
  (tz self, hl self, geo self, kw_list self).

(** the method [c] leaves [proj] of the instance as it is, whatever its
    outcome *)
Definition keeps {A B : Type} (proj : GoogleTrendsAPI -> B) (c : M A) : Prop :=
  forall self, proj (c self).2 = proj self.

(** the widget has one of the titles the resolver looks for *)
Definition known_title (widget : json) : bool :=
  title_is "Interest over time" widget || region_title widget
  || title_is "Related queries" widget.

(** the request a data fetcher sends for a widget: a GET whose [params]
    are [{req, token, tz}] *)
Definition widget_request `{Runtime} (url : string) (request token : json) (self_tz : Z)
    : Request :=
  mkRequest Get url
    {[ "params" := JObj {[ "req" := JStr (json_dumps request); "token" := token;
                           "tz" := JInt self_tz ]} ]}.

(** [out] is the record [d] of [geoMapData] without [maxValueIndex],
    [coordinates] and [formattedValue], and with [value] replaced by the
    integer coercion of the first element of its sequence. *)
Definition geo_record `{Runtime} (d out : json) : Prop :=
  exists (m : gmap string json) (v v0 : json) (n : Z),
    d = JObj m
    /\ is_Some (m !! "maxValueIndex") /\ is_Some (m !! "coordinates")
    /\ is_Some (m !! "formattedValue")
    /\ m !! "value" = Some v /\ Py.getindex v 0 = Ok v0 /\ int v0 = Ok n
    /\ out = JObj (<["value" := JInt n]>
                     (delete "formattedValue" (delete "coordinates"
                        (delete "maxValueIndex" m)))).

(** the value of an [input] tag for the form field [name]: the tag must
    have both attributes *)
Definition field_value (name : string) (u : gmap string string) : option string :=
  match u !! "value", u !! "name" with
  | Some value, Some n => if String.eqb n name then Some value else None
  | _, _ => None
  end.

(** ** A runtime to run the methods on

    A serializer for documents of integers, plain strings, lists and
    dictionaries (the examples hold no float and no character to escape),
    a parser that reads back the documents of a given list, [int] on
    decimal digits, and a service that answers the [n]-th request of a
    session with the [n]-th response of a script. *)

Module Demo.

Definition dq : string := String "034"%char EmptyString.

Definition join (sep : string) (l : list string) : string :=
  match l with
  | [] => ""
  | x :: l' => foldl (fun acc y => acc +:+ sep +:+ y) x l'
  end.

Fixpoint dumps (v : json) : string :=
  match v with
  | JNull => "null"
  | JBool b => if b then "true" else "false"
  | JInt n => pretty n
  | JFloat _ => "NaN"
  | JStr s => dq +:+ s +:+ dq
  | JList l => "[" +:+ join ", " (dumps <$> l) +:+ "]"
  | JObj m =>
      "{" +:+ join ", " ((fun kv => dq +:+ kv.1 +:+ dq +:+ ": " +:+ kv.2)
                           <$> map_to_list (dumps <$> m)) +:+ "}"
  end.

Definition loads (documents : list json) (s : string) : option json :=
  List.find (fun v => String.eqb (dumps v) s) documents.

Fixpoint digits (s : string) (acc : Z) : option Z :=
  match s with
  | EmptyString => Some acc
  | String c s' =>
      let n := Z.of_nat (nat_of_ascii c) in
      if ((48 <=? n) && (n <=? 57))%Z then digits s' (10 * acc + (n - 48)) else None
  end.

Definition decimal (s : string) : option Z :=
  match s with
  | EmptyString => None
  | _ => digits s 0
  end.

Definition not_found : Response := mkResponse 404 (Some "text/html") "<html></html>".

Definition scripted (script : list Response) (history : list Request) (_ : Request)
    : Response :=
  default not_found (script !! length history).

Definition runtime (documents : list json) (script : list Response) : Runtime :=
  {| json_loads := loads documents;
     json_dumps := dumps;
     int_of_text := decimal;
     service := scripted script |}.

(** an answer of the service: a junk prefix and a document *)
Definition answer (preamble : string) (v : json) : Response :=
  mkResponse 200 (Some "application/json; charset=utf-8") (preamble +:+ dumps v).

Definition obj (l : list (string * json)) : json := JObj (list_to_map l).

Definition widget (title token : string) (request : json) : json :=
  obj [("title", JStr title); ("token", JStr token); ("request", request)].

(** the instance as [__init__] leaves it, at the start of the history of
    its session *)
Definition fresh : GoogleTrendsAPI :=
  mkAPI [] 360 "en-US" "US" [] (JObj ∅) (JObj ∅) [].

(** the request template of a related-queries widget for one keyword *)
Definition keyword_request (kw : string) : json :=
  obj [("restriction",
        obj [("complexKeywordsRestriction",
              obj [("keyword", JList [obj [("type", JStr "BROAD"); ("value", JStr kw)]])])])].

Definition w_over_time (token : string) : json :=
  widget "Interest over time" token (obj [("resolution", JStr "WEEK")]).
Definition region_request : gmap string json := list_to_map [("geo", obj [])].
Definition region_fields : gmap string json :=
  list_to_map [("title", JStr "Interest by region"); ("token", JStr "tok-region");
               ("request", JObj region_request)].
Definition w_region : json := JObj region_fields.
Definition w_subregion : json :=
  widget "Interest by subregion" "tok-subregion" (obj [("geo", obj [("country", JStr "US")])]).
Definition w_related (kw : string) : json :=
  widget "Related queries" ("tok-" +:+ kw) (keyword_request kw).

(** the document of the explore endpoint *)
Definition explore (widgets : list json) : json := obj [("widgets", JList widgets)].

(** a runtime whose service answers the token request with [widgets]
    and the request after it with [data] *)
Definition session (widgets : list json) (data : json) : Runtime :=
  runtime [explore widgets; data]
    [answer ")]}'" (explore widgets); answer ")]}'," data].

(** the record of section 8 of the specification and its document *)
Definition timeline_fields : gmap string json :=
  list_to_map
    [("formattedValue", JStr "58"); ("value", JList [JStr "58"]);
     ("time", JStr "1471132800"); ("formattedTime", JStr "Aug 14 - Aug 20 2016")].
Definition timeline_entry : json := JObj timeline_fields.
Definition timeline_data : json :=
  obj [("default", obj [("timelineData", JList [timeline_entry])])].

(** the ranked lists as the relatedsearches endpoint returns them: the
    [value] of an entry is a number, not a sequence *)
Definition top_keyword : gmap string json :=
  list_to_map
    [("query", JStr "ugly christmas shirt"); ("value", JInt 100);
     ("link", JStr "/trends/explore?q=ugly"); ("formattedValue", JStr "100")].
Definition rising_keyword : gmap string json :=
  list_to_map
    [("query", JStr "christmas shirt ideas"); ("value", JNull);
     ("link", JStr "/trends/explore?q=ideas"); ("formattedValue", JStr "+250%")].
Definition top_list : gmap string json :=
  list_to_map [("rankedKeyword", JList [JObj top_keyword])].
Definition rising_list : gmap string json :=
  list_to_map [("rankedKeyword", JList [JObj rising_keyword])].
Definition ranked_data : json :=
  obj [("default", obj [("rankedList", JList [JObj top_list; JObj rising_list])])].

(** the ranked lists of section 8 of the specification, where the [value]
    of the top entry is the one-element sequence [["100"]] *)
Definition fixture_top : gmap string json :=
  list_to_map
    [("rankedKeyword",
      JList [obj [("value", JList [JStr "100"]); ("link", JStr "...");
                  ("formattedValue", JStr "100")]])].
Definition fixture_rising : gmap string json :=
  list_to_map
    [("rankedKeyword",
      JList [obj [("value", JNull); ("link", JStr "...");
                  ("formattedValue", JStr "+250%")]])].
Definition fixture_session : Runtime :=
  session [w_related "x"]
    (obj [("default", obj [("rankedList", JList [JObj fixture_top; JObj fixture_rising])])]).

Definition geo_data : json :=
  obj [("default", obj [("geoMapData", JList [])])].

(** *** Sessions *)

(** the payload [build_payload(['christmas shirt'])] sends *)
Definition shirt_payload (R : Runtime) : json :=
  token_request "en-US" 360 ["christmas shirt"] 0 "today 12-m" "" "".

(** the instance after [build_payload(['christmas shirt'])] *)
Definition resolved (R : Runtime) : GoogleTrendsAPI :=
  (build_payload ["christmas shirt"] 0 "today 12-m" "" "" fresh).2.

Definition region_first : Runtime :=
  session [w_over_time "a"; w_related "x"; w_region; w_subregion] geo_data.
Definition subregion_first : Runtime :=
  session [w_over_time "a"; w_subregion; w_related "x"; w_region] geo_data.

Definition over_time_twice : Runtime :=
  session [w_over_time "a"; w_region; w_over_time "b"; w_related "x"] timeline_data.

(** Two calls of the resolver in one session: the answer to the first
    holds an "Interest over time" and an "Interest by region" widget,
    the answer to the second only a "Related queries" widget. *)
Definition two_queries : Runtime :=
  runtime [explore [w_over_time "a"; w_region; w_related "x"]; explore [w_related "y"]]
    [answer ")]}'" (explore [w_over_time "a"; w_region; w_related "x"]);
     answer ")]}'" (explore [w_related "y"])].

Definition second_payload (R : Runtime) : json :=
  token_request "en-US" 360 ["easter shirt"] 0 "today 12-m" "" "".

Definition html_error : Response :=
  mkResponse 200 (Some "text/html; charset=utf-8") (dumps (explore [])).

Definition rejecting : Runtime := runtime [explore []] [html_error].

Definition over_time_session : Runtime :=
  session [w_over_time "a"; w_region; w_related "x"] timeline_data.

Definition related_session : Runtime :=
  session [w_over_time "a"; w_related "x"; w_region; w_related "y"] ranked_data.

(** *** Sessions for the further properties *)

(** a service that answers without a Content-Type header *)
Definition headerless : Runtime := runtime [explore []] [mkResponse 204 None ""].

(** a service that answers with the junk prefix alone *)
Definition prefix_only : Runtime :=
  runtime [] [mkResponse 200 (Some "application/json") ")]}'"].

(** an answer of the explore endpoint with a widget that has no title *)
Definition untitled_session : Runtime :=
  session [w_related "x"; obj [("token", JStr "tok")]; w_over_time "late"; w_region;
           w_related "y"] geo_data.

(** a [timelineData] whose second record has no [formattedValue] *)
Definition broken_timeline : Runtime :=
  session [w_over_time "a"]
    (obj [("default",
           obj [("timelineData",
                 JList [timeline_entry;
                        obj [("value", JList [JStr "73"]); ("time", JStr "1471737600")]])])]).

(** a record of [geoMapData] *)
Definition geo_fields : gmap string json :=
  list_to_map
    [("geoCode", JStr "US-TX"); ("geoName", JStr "Texas"); ("value", JList [JInt 100]);
     ("formattedValue", JList [JStr "100"]); ("maxValueIndex", JInt 0);
     ("coordinates", obj [("lat", JInt 31); ("lng", JInt (-99))])].
Definition geo_map_session : Runtime :=
  session [w_over_time "a"; w_region]
    (obj [("default", obj [("geoMapData", JList [JObj geo_fields])])]).

(** a [rankedList] without the rising list *)
Definition short_ranked : Runtime :=
  session [w_related "x"] (obj [("default", obj [("rankedList", JList [JObj top_list])])]).

(** the hidden inputs of a login page: a token given twice, an input
    without a value and an [Email] input *)
Definition login_inputs : list (gmap string string) :=
  [list_to_map [("type", "hidden"); ("name", "GALX"); ("value", "first")];
   list_to_map [("type", "hidden"); ("name", "continue")];
   list_to_map [("type", "email"); ("name", "Email"); ("value", "")];
   list_to_map [("type", "hidden"); ("name", "GALX"); ("value", "second")]].

End Demo.

(** ** Running a method *)

Lemma bind_run {A B : Type} (c : M A) (f : A -> M B) (self : GoogleTrendsAPI) :
  (c ≫= f) self
  = match c self with
    | (Ok a, self') => f a self'
    | (Raise e, self') => (Raise e, self')
    end.
Proof. reflexivity. Qed.

Lemma run_lift {A B : Type} (r : result A) (f : A -> M B) (self : GoogleTrendsAPI) :
  (lift r ≫= f) self
  = match r with
    | Ok a => f a self
    | Raise e => (Raise e, self)
    end.
Proof. now destruct r. Qed.

Lemma run_assign {B : Type} (g : GoogleTrendsAPI -> GoogleTrendsAPI) (f : unit -> M B)
    (self : GoogleTrendsAPI) :
  (assign g ≫= f) self = f tt (g self).
Proof. reflexivity. Qed.

Lemma run_attr {A B : Type} (g : GoogleTrendsAPI -> A) (f : A -> M B)
    (self : GoogleTrendsAPI) :
  (attr g ≫= f) self = f (g self) self.
Proof. reflexivity. Qed.

(** ** The decoder: [_get_data] *)

Lemma prefix_spec (a b : string) :
  String.prefix a b = true <-> exists post, b = a +:+ post.
Proof.
  revert b. induction a as [|c a IH]; intros b; simpl.
  - split; [intros _; exists b; reflexivity | intros _; now destruct b].
  - destruct b as [|d b]; simpl.
    + split; [discriminate | intros [post Hp]; discriminate].
    + destruct (Ascii.ascii_dec c d) as [->|Hne].
      * rewrite IH. split; intros [post Hp]; exists post.
        -- now rewrite Hp.
        -- now inversion Hp.
      * split; [discriminate | intros [post Hp]; inversion Hp; congruence].
Qed.

Lemma contains_spec (needle hay : string) :
  Py.contains needle hay = true <-> occurs_in needle hay.
Proof.
  induction hay as [|c hay IH].
  - cbn [Py.contains]. rewrite orb_false_r, prefix_spec. split.
    + intros [post Hp]. exists "", post. exact Hp.
    + intros [pre [post Hp]]. destruct pre; [exists post; exact Hp | discriminate].
  - cbn [Py.contains]. rewrite orb_true_iff, prefix_spec, IH. split.
    + intros [[post Hp] | [pre [post Hp]]].
      * exists "", post. exact Hp.
      * exists (String c pre), post. simpl. now rewrite Hp.
    + intros [pre [post Hp]]. destruct pre as [|d pre].
      * left. exists post. exact Hp.
      * right. exists pre, post. now inversion Hp.
Qed.

Lemma is_json_type_spec (ct : string) :
  is_json_type ct = true <-> json_content_type ct.
Proof.
  unfold is_json_type, json_content_type.
  rewrite !orb_true_iff, !contains_spec. tauto.
Qed.

Lemma slice_from_nonneg (k : Z) (s : string) :
  (0 <= k)%Z -> Py.slice_from k s = Py.drop_chars (Z.to_nat k) s.
Proof.
  intros Hk. unfold Py.slice_from.
  destruct (Z.leb_spec 0 k); [reflexivity | lia].
Qed.

Lemma drop_chars_append (junk content : string) :
  Py.drop_chars (String.length junk) (junk +:+ content) = content.
Proof. induction junk as [|c junk IH]; [now destruct content | exact IH]. Qed.

Lemma drop_chars_beyond (n : nat) (s : string) :
  (String.length s <= n)%nat -> Py.drop_chars n s = "".
Proof.
  revert s. induction n as [|n IH]; intros s Hn.
  - destruct s; [reflexivity | cbn in Hn; lia].
  - destruct s as [|c s]; [reflexivity|]. cbn in Hn |- *. apply IH. lia.
Qed.

(** C4, as amended: [_get_data] raises [ResponseError], with the response
    it got, exactly when the response has a Content-Type header that
    names none of application/json, application/javascript and
    text/javascript, whatever the body is; a response without the header
    raises [KeyError]; and for a header that names one of the three, the
    outcome is that of [json.loads] on what follows the first
    [trim_chars] characters of the body (on the empty text when the body
    has no more than [trim_chars] characters). *)
Theorem get_data_decodes `{Runtime} (url method : string) (trim_chars : Z)
    (kwargs : gmap string json) (self : GoogleTrendsAPI) :
  let response := service (ses self) (sent url method kwargs) in
  let outcome := (_get_data url method trim_chars kwargs self).1 in
  ((exists message r, outcome = Raise (ResponseError message r))
   <-> exists ct, content_type response = Some ct /\ ~ json_content_type ct)
  /\ (forall ct, content_type response = Some ct -> ~ json_content_type ct ->
        outcome = Raise (ResponseError (failure_message response) response))
  /\ (content_type response = None -> outcome = Raise KeyError)
  /\ (forall ct junk content,
        content_type response = Some ct -> json_content_type ct ->
        text response = junk +:+ content ->
        Z.of_nat (String.length junk) = trim_chars ->
        outcome = parsed content)
  /\ (forall ct,
        content_type response = Some ct -> json_content_type ct ->
        (Z.of_nat (String.length (text response)) <= trim_chars)%Z ->
        outcome = parsed "").
Proof.
  intros response outcome.
  assert (Hout : outcome =
    match content_type response with
    | None => Raise KeyError
    | Some ct =>
        if is_json_type ct
        then parsed (Py.slice_from trim_chars (text response))
        else Raise (ResponseError (failure_message response) response)
    end).
  { subst outcome. unfold _get_data. fold (sent url method kwargs). fold response.
    destruct (content_type response) as [ct|]; [|reflexivity].
    destruct (is_json_type ct); [|reflexivity].
    unfold parsed. now destruct (json_loads _). }
  assert (Hno : forall ct, content_type response = Some ct -> ~ json_content_type ct ->
                  outcome = Raise (ResponseError (failure_message response) response)).
  { intros ct Hct Hn. rewrite Hout, Hct.
    destruct (is_json_type ct) eqn:Hj; [|reflexivity].
    exfalso. apply Hn. now apply is_json_type_spec. }
  assert (Hyes : forall ct, content_type response = Some ct -> json_content_type ct ->
                   outcome = parsed (Py.slice_from trim_chars (text response))).
  { intros ct Hct Hj. rewrite Hout, Hct.
    apply is_json_type_spec in Hj. now rewrite Hj. }
  split; [|split; [exact Hno|split; [|split]]].
  - split.
    + intros [message [r Hr]]. rewrite Hout in Hr.
      destruct (content_type response) as [ct|]; [|discriminate].
      exists ct. split; [reflexivity|]. intros Hj.
      apply is_json_type_spec in Hj. rewrite Hj in Hr. unfold parsed in Hr.
      destruct (json_loads _); discriminate.
    + intros [ct [Hct Hn]]. eexists _, _. exact (Hno ct Hct Hn).
  - intros Hct. now rewrite Hout, Hct.
  - intros ct junk content Hct Hj Htext Hlen.
    rewrite (Hyes ct Hct Hj), Htext, slice_from_nonneg by lia.
    rewrite <- Hlen, Nat2Z.id. now rewrite drop_chars_append.
  - intros ct Hct Hj Hlen.
    rewrite (Hyes ct Hct Hj), slice_from_nonneg by lia.
    now rewrite drop_chars_beyond by lia.
Qed.

(** ** The widget resolver: [_tokens] *)

Section Resolver.
Context `{Runtime}.

Lemma tokens_body_titled widget frt self :
  titled widget ->
  tokens_body widget frt self
  = (Ok (frt && negb (region_title widget)), classified widget frt self).
Proof.
  intros [t Ht]. unfold tokens_body, classified, region_title, title_is.
  unfold mbind, M_bind, lift, assign, attr, mret, M_ret. rewrite Ht.
  destruct (Py.eq_str t "Interest over time"),
    (Py.eq_str t "Interest by region"),
    (Py.eq_str t "Interest by subregion"),
    (Py.eq_str t "Related queries"), frt; reflexivity.
Qed.

Lemma tokens_body_untitled widget frt self :
  ~ titled widget ->
  exists e, tokens_body widget frt self = (Raise e, self).
Proof.
  intros Hno. unfold tokens_body, mbind, M_bind, lift.
  destruct (Py.getitem widget "title") as [t|e] eqn:Ht.
  - exfalso. apply Hno. now exists t.
  - now exists e.
Qed.

Lemma titled_dec widget : titled widget \/ ~ titled widget.
Proof.
  unfold titled. destruct (Py.getitem widget "title") as [t|e].
  - left. now exists t.
  - right. intros [t Ht]. discriminate.
Qed.

Lemma tokens_loop_cons widget widgets frt self :
  titled widget ->
  tokens_loop (widget :: widgets) frt self
  = tokens_loop widgets (frt && negb (region_title widget)) (classified widget frt self).
Proof.
  intros Ht. cbn [tokens_loop]. unfold mbind at 1, M_bind at 1.
  now rewrite tokens_body_titled.
Qed.

Lemma tokens_loop_stops widget widgets frt self :
  ~ titled widget ->
  (tokens_loop (widget :: widgets) frt self).2 = self.
Proof.
  intros Hno. cbn [tokens_loop]. unfold mbind at 1, M_bind at 1.
  destruct (tokens_body_untitled widget frt self Hno) as [e ->]. reflexivity.
Qed.

(** Once a region widget is chosen, the rest of the loop keeps it. *)
Lemma tokens_loop_keeps_region widgets self :
  interest_by_region_widget (tokens_loop widgets false self).2
  = interest_by_region_widget self.
Proof.
  revert self. induction widgets as [|w ws IH]; intros self; [reflexivity|].
  destruct (titled_dec w) as [Ht|Hno].
  - rewrite (tokens_loop_cons _ _ _ _ Ht). cbn [andb]. rewrite IH.
    unfold classified. rewrite andb_false_r.
    destruct (title_is "Interest over time" w), (title_is "Related queries" w);
      reflexivity.
  - now rewrite (tokens_loop_stops _ _ _ _ Hno).
Qed.

(** The loop keeps the interest-over-time widget over widgets that are
    not titled "Interest over time". *)
Lemma tokens_loop_keeps_over_time widgets frt self :
  Forall (fun x => title_is "Interest over time" x = false) widgets ->
  interest_over_time_widget (tokens_loop widgets frt self).2
  = interest_over_time_widget self.
Proof.
  intros Hn. revert frt self.
  induction widgets as [|w ws IH]; intros frt self; [reflexivity|].
  inversion Hn as [|? ? Hw Hws]; subst.
  destruct (titled_dec w) as [Ht|Hno].
  - rewrite (tokens_loop_cons _ _ _ _ Ht), (IH Hws).
    unfold classified. rewrite Hw.
    destruct (region_title w && frt), (title_is "Related queries" w); reflexivity.
  - now rewrite (tokens_loop_stops _ _ _ _ Hno).
Qed.

(** The loop reaches what follows widgets that have a title. *)
Lemma tokens_loop_app pre widgets frt self :
  Forall titled pre ->
  exists frt' self',
    tokens_loop (pre ++ widgets) frt self = tokens_loop widgets frt' self'.
Proof.
  intros Ht. revert frt self.
  induction pre as [|w ws IH]; intros frt self.
  - now exists frt, self.
  - inversion Ht as [|? ? Htw Htws]; subst.
    change ((w :: ws) ++ widgets)%list with (w :: (ws ++ widgets))%list.
    rewrite (tokens_loop_cons _ _ _ _ Htw). apply (IH Htws).
Qed.

End Resolver.

Section ResolverClaims.
Context `{Runtime}.

Lemma tokens_run token_payload self self1 widgets :
  tokens_fetch token_payload self = (Ok (JList widgets), self1) ->
  _tokens token_payload self
  = tokens_loop widgets true (set_related_queries_widget_list [] self1).
Proof.
  intros Hf. unfold _tokens. unfold mbind at 1, M_bind at 1. rewrite Hf.
  reflexivity.
Qed.

Lemma tokens_loop_ok widgets frt self :
  Forall titled widgets -> (tokens_loop widgets frt self).1 = Ok tt.
Proof.
  intros Ht. revert frt self.
  induction Ht as [|w ws Htw _ IH]; intros frt self; [reflexivity|].
  rewrite (tokens_loop_cons _ _ _ _ Htw). apply IH.
Qed.

Lemma tokens_loop_app_no_region pre widgets frt self :
  Forall titled pre ->
  Forall (fun x => region_title x = false) pre ->
  exists self', tokens_loop (pre ++ widgets) frt self = tokens_loop widgets frt self'.
Proof.
  intros Ht Hr. revert frt self.
  induction pre as [|w ws IH]; intros frt self.
  - now exists self.
  - inversion Ht as [|? ? Htw Htws]; subst. inversion Hr as [|? ? Hrw Hrws]; subst.
    change ((w :: ws) ++ widgets)%list with (w :: (ws ++ widgets))%list.
    rewrite (tokens_loop_cons _ _ _ _ Htw), Hrw, andb_true_r.
    apply (IH Htws Hrws).
Qed.

Lemma region_title_titled widget : region_title widget = true -> titled widget.
Proof.
  unfold region_title, title_is, titled.
  destruct (Py.getitem widget "title") as [t|e]; [now exists t | discriminate].
Qed.

Lemma title_is_titled s widget : title_is s widget = true -> titled widget.
Proof.
  unfold title_is, titled.
  destruct (Py.getitem widget "title") as [t|e]; [now exists t | discriminate].
Qed.

(** C1: when the resolver reaches a widget titled "Interest by region" or
    "Interest by subregion" with no widget of either title before it in
    the array, that widget is the interest-by-region widget afterwards,
    whatever follows it in the array; the call returns when every
    widget after it has a title too. *)
Theorem tokens_region_first_wins token_payload self self1 pre widget post :
  tokens_fetch token_payload self = (Ok (JList (pre ++ widget :: post)), self1) ->
  Forall titled pre ->
  Forall (fun x => region_title x = false) pre ->
  region_title widget = true ->
  interest_by_region_widget (_tokens token_payload self).2 = widget
  /\ (Forall titled post -> (_tokens token_payload self).1 = Ok tt).
Proof.
  intros Hf Ht Hr Hw. rewrite (tokens_run _ _ _ _ Hf). split.
  - destruct (tokens_loop_app_no_region pre (widget :: post) true
                (set_related_queries_widget_list [] self1) Ht Hr) as [self' ->].
    rewrite (tokens_loop_cons _ _ _ _ (region_title_titled _ Hw)), Hw.
    cbn [negb andb]. rewrite tokens_loop_keeps_region.
    unfold classified. rewrite Hw. cbn [andb].
    destruct (title_is "Interest over time" widget),
      (title_is "Related queries" widget); reflexivity.
  - intros Hpost. apply tokens_loop_ok. apply Forall_app. split; [exact Ht|].
    constructor; [exact (region_title_titled _ Hw) | exact Hpost].
Qed.

(** C7: when the resolver reaches a widget titled "Interest over time"
    with no widget of that title after it in the array, that widget is
    the interest-over-time widget afterwards, whatever comes before it. *)
Theorem tokens_over_time_last_wins token_payload self self1 pre widget post :
  tokens_fetch token_payload self = (Ok (JList (pre ++ widget :: post)), self1) ->
  Forall titled pre ->
  title_is "Interest over time" widget = true ->
  Forall (fun x => title_is "Interest over time" x = false) post ->
  interest_over_time_widget (_tokens token_payload self).2 = widget
  /\ (Forall titled post -> (_tokens token_payload self).1 = Ok tt).
Proof.
  intros Hf Ht Hw Hpost. rewrite (tokens_run _ _ _ _ Hf). split.
  - destruct (tokens_loop_app pre (widget :: post) true
                (set_related_queries_widget_list [] self1) Ht) as [frt [self' ->]].
    rewrite (tokens_loop_cons _ _ _ _ (title_is_titled _ _ Hw)).
    rewrite (tokens_loop_keeps_over_time _ _ _ Hpost).
    unfold classified. rewrite Hw.
    destruct (region_title widget && frt), (title_is "Related queries" widget);
      reflexivity.
  - intros Htp. apply tokens_loop_ok. apply Forall_app. split; [exact Ht|].
    constructor; [exact (title_is_titled _ _ Hw) | exact Htp].
Qed.

End ResolverClaims.

(** ** The payload of the token request: [build_payload] *)

Section Payload.
Context `{Runtime}.

Lemma get_data_state url method trim_chars kwargs self :
  (_get_data url method trim_chars kwargs self).2
  = set_ses (ses self ++ [sent url method kwargs]) self.
Proof.
  unfold _get_data. fold (sent url method kwargs).
  destruct (content_type _); [|reflexivity].
  destruct (is_json_type _); [|reflexivity].
  now destruct (json_loads _).
Qed.

Lemma tokens_loop_ses widgets frt self :
  ses (tokens_loop widgets frt self).2 = ses self.
Proof.
  revert frt self. induction widgets as [|w ws IH]; intros frt self; [reflexivity|].
  destruct (titled_dec w) as [Ht|Hno].
  - rewrite (tokens_loop_cons _ _ _ _ Ht), IH. unfold classified.
    destruct (title_is "Interest over time" w), (region_title w && frt),
      (title_is "Related queries" w); reflexivity.
  - now rewrite (tokens_loop_stops _ _ _ _ Hno).
Qed.

(** Whatever the service answers, [_tokens] sends one GET request to the
    explore endpoint, with the payload as its [params]. *)
Lemma tokens_ses token_payload self :
  ses (_tokens token_payload self).2
  = ses self ++ [mkRequest Get GENERAL_URL {[ "params" := token_payload ]}].
Proof.
  unfold _tokens, tokens_fetch. rewrite !bind_run.
  pose proof (get_data_state GENERAL_URL GET_METHOD 4
                {[ "params" := token_payload ]} self) as Hs.
  destruct (_get_data _ _ _ _ self) as [[data|e] s1]; cbn [snd] in Hs; subst s1;
    [|reflexivity].
  unfold lift at 1. destruct (Py.getitem data "widgets") as [wd|e]; [|reflexivity].
  rewrite run_assign, run_lift.
  destruct (Py.iter wd) as [ws|e]; [|reflexivity].
  now rewrite tokens_loop_ses.
Qed.

Lemma foldl_append {A B : Type} (f : B -> A) (l : list B) (acc : list A) :
  foldl (fun items x => (items ++ [f x])%list) acc l = (acc ++ (f <$> l))%list.
Proof.
  revert acc. induction l as [|x l IH]; intros acc; cbn [foldl fmap list_fmap].
  - now rewrite app_nil_r.
  - rewrite IH, <- app_assoc. reflexivity.
Qed.

Lemma keyword_payload_item timeframe g kw :
  keyword_payload timeframe g kw = comparison_item timeframe g kw.
Proof.
  reflexivity.
Qed.

(** C8: [build_payload] sends one request, a GET to the explore endpoint,
    whose [params] are [{hl, tz, req, property}], where [req] is the text
    [json.dumps] makes of [{comparisonItem, category}] and
    [comparisonItem] holds one [{keyword, time: timeframe, geo}] per
    keyword, in the order of the keyword list. *)
Theorem build_payload_request (kws : list string) (cat : Z)
    (timeframe g gprop : string) (self : GoogleTrendsAPI) :
  ses (build_payload kws cat timeframe g gprop self).2
  = ses self ++
      [mkRequest Get GENERAL_URL
         {[ "params" := token_request (hl self) (tz self) kws cat timeframe g gprop ]}].
Proof.
  unfold build_payload.
  rewrite !run_assign, !run_attr.
  cbn [set_kw_list set_geo hl tz kw_list geo].
  rewrite tokens_ses. cbn [ses set_geo set_kw_list].
  do 4 f_equal.
  rewrite foldl_append. cbn [app].
  unfold token_request.
  assert (Hitems : keyword_payload timeframe g <$> kws
                   = comparison_item timeframe g <$> kws).
  { apply list_fmap_ext. intros _ kw _. apply keyword_payload_item. }
  rewrite Hitems. reflexivity.
Qed.

End Payload.

(** ** Interest over time: [interest_over_time] *)

Section OverTime.
Context `{Runtime}.

Lemma mapR_Forall2 {A B : Type} (body : A -> result B) (l : list A) (outs : list B) :
  Forall2 (fun x y => body x = Ok y) l outs -> mapR body l = Ok outs.
Proof.
  induction 1 as [|x y l outs Hxy _ IH]; cbn [mapR]; [reflexivity|].
  now rewrite Hxy, IH.
Qed.

Lemma clean_timeline_run (m : gmap string json) (fv t v : json) (ti vi : Z) :
  m !! "formattedValue" = Some fv ->
  m !! "time" = Some t -> int t = Ok ti ->
  m !! "value" = Some (JList [v]) -> int v = Ok vi ->
  clean_timeline (JObj m)
  = Ok (JObj (<["value" := JInt vi]> (<["time" := JInt ti]> (delete "formattedValue" m)))).
Proof.
  intros Hfv Ht Hti Hv Hvi. unfold clean_timeline.
  cbn [Py.delitem]. rewrite Hfv. cbn [mbind result_bind Py.getitem].
  rewrite lookup_delete_ne by discriminate. rewrite Ht.
  cbn [mbind result_bind]. rewrite Hti. cbn [mbind result_bind Py.setitem Py.getitem].
  rewrite lookup_insert_ne by discriminate.
  rewrite lookup_delete_ne by discriminate. rewrite Hv.
  cbn [mbind result_bind Py.getindex lookup list_lookup]. rewrite Hvi.
  reflexivity.
Qed.

Lemma timeline_record_run (d out : json) :
  timeline_record d out -> clean_timeline d = Ok out.
Proof.
  intros (m & m' & t & v & ti & vi & -> & -> & [fv Hfv] & Ht & Hti & Hv & Hvi
          & Hfv' & Ht' & Hv' & Hrest).
  rewrite (clean_timeline_run m fv t v ti vi Hfv Ht Hti Hv Hvi).
  do 2 f_equal. apply map_eq. intros k.
  destruct (decide (k = "value")) as [->|Hk1]; [now rewrite lookup_insert_eq|].
  rewrite lookup_insert_ne by congruence.
  destruct (decide (k = "time")) as [->|Hk2]; [now rewrite lookup_insert_eq|].
  rewrite lookup_insert_ne by congruence.
  destruct (decide (k = "formattedValue")) as [->|Hk3]; [now rewrite lookup_delete_eq|].
  rewrite lookup_delete_ne by congruence.
  symmetry. now apply Hrest.
Qed.

(** the normalized record, for a record that has the three fields *)
Lemma timeline_record_intro (m : gmap string json) (fv t v : json) (ti vi : Z) :
  m !! "formattedValue" = Some fv ->
  m !! "time" = Some t -> int t = Ok ti ->
  m !! "value" = Some (JList [v]) -> int v = Ok vi ->
  timeline_record (JObj m)
    (JObj (<["value" := JInt vi]> (<["time" := JInt ti]> (delete "formattedValue" m)))).
Proof.
  intros Hfv Ht Hti Hv Hvi. unfold timeline_record.
  eexists m, _, t, v, ti, vi.
  split; [reflexivity|]. split; [reflexivity|].
  repeat split; try assumption.
  - now exists fv.
  - rewrite !lookup_insert_ne by discriminate. apply lookup_delete_eq.
  - rewrite lookup_insert_ne by discriminate. apply lookup_insert_eq.
  - apply lookup_insert_eq.
  - intros k Hk1 Hk2 Hk3.
    rewrite !lookup_insert_ne by congruence. now rewrite lookup_delete_ne by congruence.
Qed.

(** C5: when the endpoint returns the records [records] as
    [timelineData], each with [formattedValue], a [time] and a
    one-element [value] that [int] accepts, [interest_over_time] returns,
    in the same order, the records with [formattedValue] absent, [time]
    and [value] replaced by the integers, and the other fields
    unchanged. *)
Theorem interest_over_time_normalizes (self self1 : GoogleTrendsAPI)
    (records outs : list json) :
  timeline_fetch self = (Ok (JList records), self1) ->
  Forall2 timeline_record records outs ->
  interest_over_time self = (Ok (JList outs), self1).
Proof.
  intros Hf Hrec. unfold interest_over_time. rewrite bind_run, Hf.
  unfold lift, Py.for_in_place.
  rewrite (mapR_Forall2 clean_timeline records outs); [reflexivity|].
  eapply Forall2_impl; [exact Hrec|]. intros d out. apply timeline_record_run.
Qed.

End OverTime.

(** ** Related queries: [related_queries] *)

Section Related.
Context `{Runtime}.

Lemma getindex_0 (x : json) (l : list json) : Py.getindex (JList (x :: l)) 0 = Ok x.
Proof. reflexivity. Qed.

Lemma getindex_1 (x y : json) (l : list json) :
  Py.getindex (JList (x :: y :: l)) 1 = Ok y.
Proof. reflexivity. Qed.

Lemma stored_at_0 (x x' : json) (l : list json) :
  stored_at 0 x' (JList (x :: l)) = JList (x' :: l).
Proof. reflexivity. Qed.

Lemma stored_at_1 (x y y' : json) (l : list json) :
  stored_at 1 y' (JList (x :: y :: l)) = JList (x :: y' :: l).
Proof. reflexivity. Qed.

Ltac py_run :=
  repeat (progress
    (cbn [mbind result_bind fmap result_fmap
          Py.getitem Py.setitem Py.delitem Py.for_in_place stored_in];
     rewrite ?getindex_0, ?getindex_1, ?stored_at_0, ?stored_at_1)).

Lemma clean_top_run (kw out : json) : top_entry kw out -> clean_top kw = Ok out.
Proof.
  intros (m & v & n & -> & Hv & Hn & [l Hl] & [fv Hfv] & ->).
  unfold clean_top. py_run. rewrite Hv. py_run. rewrite Hn. py_run.
  rewrite lookup_insert_ne by discriminate. rewrite Hl. py_run.
  rewrite lookup_delete_ne by discriminate.
  rewrite lookup_insert_ne by discriminate. rewrite Hfv. reflexivity.
Qed.

Lemma clean_rising_run (kw out : json) : rising_entry kw out -> clean_rising kw = Ok out.
Proof.
  intros (m & fv & -> & [l Hl] & Hfv & ->).
  unfold clean_rising. py_run. rewrite Hl. py_run.
  rewrite lookup_delete_ne by discriminate. rewrite Hfv. py_run.
  rewrite lookup_insert_ne by discriminate.
  rewrite lookup_delete_ne by discriminate. rewrite Hfv. reflexivity.
Qed.

Lemma clean_ranked_run (top rising : gmap string json)
    (tops tops' risings risings' : list json) :
  top !! "rankedKeyword" = Some (JList tops) ->
  Forall2 top_entry tops tops' ->
  rising !! "rankedKeyword" = Some (JList risings) ->
  Forall2 rising_entry risings risings' ->
  clean_ranked (JList [JObj top; JObj rising])
  = Ok (JList [JObj (<["rankedKeyword" := JList tops']> top);
               JObj (<["risingKeywords" := JList risings']>
                       (delete "rankedKeyword" rising))]).
Proof.
  intros Ht Hts Hr Hrs. unfold clean_ranked. py_run.
  rewrite Ht. py_run.
  rewrite (mapR_Forall2 clean_top tops tops');
    [|eapply Forall2_impl; [exact Hts|]; intros ? ?; apply clean_top_run].
  py_run. rewrite Hr. py_run.
  rewrite (mapR_Forall2 clean_rising risings risings');
    [|eapply Forall2_impl; [exact Hrs|]; intros ? ?; apply clean_rising_run].
  py_run. rewrite lookup_insert_eq. py_run.
  rewrite lookup_insert_ne by discriminate. rewrite lookup_insert_eq.
  do 4 f_equal.
  rewrite delete_insert_ne by discriminate. now rewrite delete_insert_eq.
Qed.

End Related.

Section RelatedClaims.
Context `{Runtime}.

Lemma related_queries_cons (self : GoogleTrendsAPI) (widget : json) (rest : list json) :
  related_queries_widget_list self = widget :: rest ->
  related_queries self
  = ((ranked_fetch widget self).1 ≫= clean_ranked, (ranked_fetch widget self).2).
Proof.
  intros Hl. unfold related_queries. rewrite run_attr, Hl.
  cbn [for_return]. unfold related_body. rewrite !bind_run.
  destruct (ranked_fetch widget self) as [[rankedList|e] self1]; [|reflexivity].
  rewrite run_lift. cbn [fst snd mbind result_bind].
  now destruct (clean_ranked rankedList).
Qed.

Lemma ranked_fetch_ses (widget : json) (self : GoogleTrendsAPI) :
  ses (ranked_fetch widget self).2 = ses self ++ related_requests widget self.
Proof.
  unfold ranked_fetch, related_requests. rewrite run_lift.
  destruct (widget_keyword widget) as [kw|e]; [|cbn; now rewrite app_nil_r].
  unfold widget_payload. rewrite bind_run, run_lift.
  destruct (Py.getitem widget "request") as [request|e];
    [|cbn; now rewrite app_nil_r].
  rewrite run_lift.
  destruct (Py.getitem widget "token") as [token|e]; [|cbn; now rewrite app_nil_r].
  rewrite run_attr. unfold mret, M_ret. rewrite bind_run.
  match goal with
  | |- context [_get_data ?u ?m ?k ?kw self] =>
      pose proof (get_data_state u m k kw self) as Hs;
      destruct (_get_data u m k kw self) as [[data|e] self1]
  end; cbn [snd] in Hs; subst self1; [|reflexivity].
  unfold lift. reflexivity.
Qed.

Lemma widget_payload_eval (widget : json) (self : GoogleTrendsAPI) :
  exists r, forall s, tz s = tz self -> widget_payload widget s = (r, s).
Proof.
  unfold widget_payload.
  destruct (Py.getitem widget "request") as [request|e] eqn:Hr.
  - destruct (Py.getitem widget "token") as [token|e] eqn:Ht.
    + eexists. intros s Hs. rewrite run_lift, run_lift, run_attr, Hs. reflexivity.
    + eexists. intros s Hs. rewrite run_lift, run_lift. reflexivity.
  - eexists. intros s Hs. rewrite run_lift. reflexivity.
Qed.

Lemma ranked_fetch_list (widget : json) (l : list json) (self : GoogleTrendsAPI) :
  ranked_fetch widget (set_related_queries_widget_list l self)
  = ((ranked_fetch widget self).1,
     set_related_queries_widget_list l (ranked_fetch widget self).2).
Proof.
  unfold ranked_fetch. rewrite !run_lift.
  destruct (widget_keyword widget) as [kw|e]; [|reflexivity].
  destruct (widget_payload_eval widget self) as [r Hr].
  rewrite !bind_run, (Hr (set_related_queries_widget_list l self) eq_refl),
    (Hr self eq_refl).
  destruct r as [payload|e]; [|reflexivity].
  rewrite !bind_run. unfold _get_data.
  cbn [ses set_related_queries_widget_list].
  destruct (content_type _) as [ct|]; [|reflexivity].
  destruct (is_json_type ct); [|reflexivity].
  destruct (json_loads _) as [data|]; [|reflexivity].
  unfold lift.
  now destruct (d ← Py.getitem data "default"; Py.getitem d "rankedList").
Qed.

Lemma ranked_fetch_ok_requests (widget rankedList : json) (self self1 : GoogleTrendsAPI) :
  ranked_fetch widget self = (Ok rankedList, self1) ->
  length (related_requests widget self) = 1%nat.
Proof.
  unfold ranked_fetch, related_requests. rewrite run_lift.
  destruct (widget_keyword widget) as [kw|e]; [|discriminate].
  unfold widget_payload. rewrite bind_run, run_lift.
  destruct (Py.getitem widget "request") as [request|e]; [|discriminate].
  rewrite run_lift.
  destruct (Py.getitem widget "token") as [token|e]; [|discriminate].
  reflexivity.
Qed.

(** C3: when the list of related-queries widgets starts with [widget],
    [related_queries] sends the request of the fetch for [widget] and no
    other, its outcome and its requests are the same whatever widgets
    follow [widget] in the list, and when that fetch returns a
    [rankedList] of a top and a rising list, it returns these two lists
    normalized: the top entries with [value] as an integer and without
    [link] and [formattedValue], the rising entries under
    [risingKeywords] with what [formattedValue] held as [value]. *)
Theorem related_queries_first_only (self : GoogleTrendsAPI) (widget : json)
    (rest : list json) :
  related_queries_widget_list self = widget :: rest ->
  (ses (related_queries self).2 = ses self ++ related_requests widget self
   /\ (length (related_requests widget self) <= 1)%nat)
  /\ (forall rest' : list json,
        let self' := set_related_queries_widget_list (widget :: rest') self in
        (related_queries self').1 = (related_queries self).1
        /\ ses (related_queries self').2 = ses (related_queries self).2)
  /\ (forall (self1 : GoogleTrendsAPI) (top rising : gmap string json)
             (tops tops' risings risings' : list json),
        ranked_fetch widget self = (Ok (JList [JObj top; JObj rising]), self1) ->
        top !! "rankedKeyword" = Some (JList tops) ->
        Forall2 top_entry tops tops' ->
        rising !! "rankedKeyword" = Some (JList risings) ->
        Forall2 rising_entry risings risings' ->
        related_queries self
        = (Ok (JList [JObj (<["rankedKeyword" := JList tops']> top);
                      JObj (<["risingKeywords" := JList risings']>
                              (delete "rankedKeyword" rising))]),
           self1)
        /\ length (related_requests widget self) = 1%nat).
Proof.
  intros Hl. split; [|split].
  - rewrite (related_queries_cons self widget rest Hl). split.
    + cbn [snd]. apply ranked_fetch_ses.
    + unfold related_requests.
      destruct (widget_keyword widget), (Py.getitem widget "request"),
        (Py.getitem widget "token"); cbn; lia.
  - intros rest'. cbn zeta.
    rewrite (related_queries_cons self widget rest Hl).
    rewrite (related_queries_cons
               (set_related_queries_widget_list (widget :: rest') self) widget rest'
               eq_refl).
    rewrite ranked_fetch_list. cbn [fst snd]. split; reflexivity.
  - intros self1 top rising tops tops' risings risings' Hf Ht Hts Hr Hrs. split.
    + rewrite (related_queries_cons self widget rest Hl), Hf.
      cbn [fst snd mbind result_bind].
      now rewrite (clean_ranked_run top rising tops tops' risings risings').
    + exact (ranked_fetch_ok_requests _ _ _ _ Hf).
Qed.

(** C6, as amended: when the endpoint returns a [rankedList] of two
    entries, where every entry of the list at index 0 has a [value] that
    [int] accepts as it is, [related_queries] returns it with, at index
    0, every entry of [rankedKeyword] with [int] of its [value] as
    [value] and without [link] and [formattedValue], and at index 1 no
    [rankedKeyword] but a [risingKeywords] whose entries have no [link],
    what [formattedValue] held as [value], and no [formattedValue]. *)
Theorem related_queries_normalizes (self self1 : GoogleTrendsAPI) (widget : json)
    (rest : list json) (top rising : gmap string json)
    (tops tops' risings risings' : list json) :
  related_queries_widget_list self = widget :: rest ->
  ranked_fetch widget self = (Ok (JList [JObj top; JObj rising]), self1) ->
  top !! "rankedKeyword" = Some (JList tops) ->
  Forall2 top_entry tops tops' ->
  rising !! "rankedKeyword" = Some (JList risings) ->
  Forall2 rising_entry risings risings' ->
  related_queries self
  = (Ok (JList [JObj (<["rankedKeyword" := JList tops']> top);
                JObj (<["risingKeywords" := JList risings']>
                        (delete "rankedKeyword" rising))]),
     self1).
Proof.
  intros Hl Hf Ht Hts Hr Hrs.
  rewrite (related_queries_cons self widget rest Hl), Hf.
  cbn [fst snd mbind result_bind].
  now rewrite (clean_ranked_run top rising tops tops' risings risings').
Qed.

(** C10: with an empty list of related-queries widgets, [related_queries]
    sends nothing, changes nothing and returns [None]. *)
Theorem related_queries_empty (self : GoogleTrendsAPI) :
  related_queries_widget_list self = [] ->
  related_queries self = (Ok JNull, self).
Proof.
  intros Hl. unfold related_queries. rewrite run_attr, Hl. reflexivity.
Qed.

End RelatedClaims.

(** ** What the data fetchers leave of the Widget Set *)

Section Frame.
Context `{Runtime}.

Lemma keeps_bind {A B : Type} (c : M A) (f : A -> M B) :
  keeps_widgets c -> (forall a, keeps_widgets (f a)) -> keeps_widgets (c ≫= f).
Proof.
  intros Hc Hf self. rewrite bind_run. specialize (Hc self).
  destruct (c self) as [[a|e] self1]; cbn [snd] in *; [|exact Hc].
  now rewrite Hf.
Qed.

Lemma keeps_lift {A : Type} (r : result A) : keeps_widgets (lift r).
Proof. intros self. reflexivity. Qed.

Lemma keeps_attr {A : Type} (g : GoogleTrendsAPI -> A) : keeps_widgets (attr g).
Proof. intros self. reflexivity. Qed.

Lemma keeps_ret {A : Type} (a : A) : keeps_widgets (mret a : M A).
Proof. intros self. reflexivity. Qed.

Lemma keeps_get_data url method trim_chars kwargs :
  keeps_widgets (_get_data url method trim_chars kwargs).
Proof. intros self. now rewrite get_data_state. Qed.

Lemma keeps_widget_payload widget : keeps_widgets (widget_payload widget).
Proof.
  unfold widget_payload.
  repeat (apply keeps_bind; [|intros ?]);
    auto using @keeps_lift, @keeps_attr, @keeps_ret.
Qed.

Lemma keeps_interest_over_time : keeps_widgets interest_over_time.
Proof.
  unfold interest_over_time, timeline_fetch.
  repeat (apply keeps_bind; [|intros ?]);
    auto using @keeps_lift, @keeps_attr, @keeps_ret, keeps_get_data,
      keeps_widget_payload.
Qed.

Lemma keeps_related_body widget : keeps_widgets (related_body widget).
Proof.
  unfold related_body, ranked_fetch.
  repeat (apply keeps_bind; [|intros ?]);
    auto using @keeps_lift, @keeps_attr, @keeps_ret, keeps_get_data,
      keeps_widget_payload.
Qed.

Lemma keeps_for_return body widgets :
  (forall x, keeps_widgets (body x)) -> keeps_widgets (for_return body widgets).
Proof.
  intros Hb. induction widgets as [|x l IH]; cbn [for_return].
  - apply keeps_ret.
  - apply keeps_bind; [apply Hb|]. intros [v|]; [apply keeps_ret | exact IH].
Qed.

Lemma keeps_related_queries : keeps_widgets related_queries.
Proof.
  unfold related_queries.
  apply keeps_bind; [apply keeps_attr|]. intros widgets.
  apply keeps_bind; [|intros ?; apply keeps_ret].
  apply keeps_for_return, keeps_related_body.
Qed.

(** what follows the test on [self.geo] in [interest_by_region] *)
Lemma keeps_region_fetch :
  keeps_widgets
    (widget ← attr interest_by_region_widget;
     region_payload ← widget_payload widget;
     data ← _get_data INTEREST_BY_REGION_URL GET_METHOD 5 {[ "params" := region_payload ]};
     geoMapData ← lift (d ← Py.getitem data "default"; Py.getitem d "geoMapData");
     lift (Py.for_in_place clean_geo geoMapData)).
Proof.
  repeat (apply keeps_bind; [|intros ?]);
    auto using @keeps_lift, @keeps_attr, @keeps_ret, keeps_get_data,
      keeps_widget_payload.
Qed.

Lemma patch_resolution_run resolution self (widget request : gmap string json) :
  interest_by_region_widget self = JObj widget ->
  widget !! "request" = Some (JObj request) ->
  patch_resolution resolution self
  = (Ok tt,
     set_interest_by_region_widget
       (JObj (<["request" := JObj (<["resolution" := JStr resolution]> request)]> widget))
       self).
Proof.
  intros Hw Hr. unfold patch_resolution.
  rewrite run_attr, Hw, run_lift. cbn [Py.getitem]. rewrite Hr.
  rewrite run_lift. reflexivity.
Qed.

(** C9, as amended: [interest_over_time] and [related_queries] leave the
    three widget attributes as they are, and so does [interest_by_region]
    when [self.geo] is not empty; when it is empty, [interest_by_region]
    sets [resolution] in the request of the interest-by-region widget
    and leaves the rest of that widget and the other widgets as they
    are. *)
Theorem fetchers_widget_frame (resolution : string) (self : GoogleTrendsAPI) :
  widget_set (interest_over_time self).2 = widget_set self
  /\ widget_set (related_queries self).2 = widget_set self
  /\ (geo self <> "" ->
      widget_set (interest_by_region resolution self).2 = widget_set self)
  /\ (forall widget request : gmap string json,
        geo self = "" ->
        interest_by_region_widget self = JObj widget ->
        widget !! "request" = Some (JObj request) ->
        widget_set (interest_by_region resolution self).2
        = (interest_over_time_widget self,
           JObj (<["request" := JObj (<["resolution" := JStr resolution]> request)]>
                   widget),
           related_queries_widget_list self)).
Proof.
  split; [apply keeps_interest_over_time|].
  split; [apply keeps_related_queries|].
  split.
  - intros Hg. unfold interest_by_region. rewrite run_attr.
    destruct (String.eqb_spec (geo self) "") as [Heq|_]; [contradiction|].
    rewrite bind_run. cbn [mret M_ret]. apply keeps_region_fetch.
  - intros widget request Hg Hw Hr. unfold interest_by_region.
    rewrite run_attr, Hg. cbn [String.eqb]. rewrite bind_run.
    rewrite (patch_resolution_run resolution self widget request Hw Hr).
    rewrite keeps_region_fetch. reflexivity.
Qed.

End Frame.

(** ** The methods on concrete sessions *)

Section Runs.
Import Demo.

Lemma tokens_region_first_wins_witness :
  interest_by_region_widget (@_tokens region_first (shirt_payload region_first) fresh).2 = w_region
  /\ interest_by_region_widget (@_tokens subregion_first (shirt_payload subregion_first) fresh).2
     = w_subregion.
Proof.
  split.
  - refine (proj1 (tokens_region_first_wins (H:=region_first) (shirt_payload region_first) fresh
                     (@tokens_fetch region_first (shirt_payload region_first) fresh).2
                     [w_over_time "a"; w_related "x"] w_region [w_subregion] _ _ _ _)).
    + vm_compute. reflexivity.
    + repeat constructor; eexists; reflexivity.
    + repeat constructor.
    + reflexivity.
  - refine (proj1 (tokens_region_first_wins (H:=subregion_first) (shirt_payload subregion_first) fresh
                     (@tokens_fetch subregion_first (shirt_payload subregion_first) fresh).2
                     [w_over_time "a"] w_subregion [w_related "x"; w_region] _ _ _ _)).
    + vm_compute. reflexivity.
    + repeat constructor; eexists; reflexivity.
    + repeat constructor.
    + reflexivity.
Defined.

Lemma tokens_over_time_last_wins_witness :
  interest_over_time_widget (@_tokens over_time_twice (shirt_payload over_time_twice) fresh).2
  = w_over_time "b".
Proof.
  refine (proj1 (tokens_over_time_last_wins (H:=over_time_twice) (shirt_payload over_time_twice) fresh
                   (@tokens_fetch over_time_twice (shirt_payload over_time_twice) fresh).2
                   [w_over_time "a"; w_region] (w_over_time "b") [w_related "x"] _ _ _ _)).
  - vm_compute. reflexivity.
  - repeat constructor; eexists; reflexivity.
  - reflexivity.
  - repeat constructor.
Defined.

(** C2, on the code: after the second call the interest-over-time and
    the interest-by-region widget are still those of the first answer;
    only the list of related-queries widgets is that of the second. *)
Theorem tokens_keeps_stale_widgets :
  let first := (@_tokens two_queries (shirt_payload two_queries) fresh).2 in
  let second := @_tokens two_queries (second_payload two_queries) first in
  second.1 = Ok tt
  /\ widget_set first = (w_over_time "a", w_region, [w_related "x"])
  /\ widget_set second.2 = (w_over_time "a", w_region, [w_related "y"]).
Proof. vm_compute. repeat split; reflexivity. Qed.

Lemma get_data_decodes_witness :
  (@_get_data rejecting GENERAL_URL GET_METHOD 0 ∅ fresh).1
  = Raise (ResponseError (failure_message html_error) html_error)
  /\ @json_loads rejecting (text html_error) = Some (explore [])
  /\ (@_get_data region_first GENERAL_URL GET_METHOD 4 ∅ fresh).1
     = Ok (explore [w_over_time "a"; w_related "x"; w_region; w_subregion]).
Proof.
  split; [|split; [vm_compute; reflexivity|]].
  - pose proof (get_data_decodes (H:=rejecting) GENERAL_URL GET_METHOD 0 ∅ fresh)
      as (_ & Hreject & _).
    apply (Hreject "text/html; charset=utf-8"); [reflexivity|].
    intros Hyes. apply is_json_type_spec in Hyes. vm_compute in Hyes. discriminate.
  - pose proof (get_data_decodes (H:=region_first) GENERAL_URL GET_METHOD 4 ∅ fresh)
      as (_ & _ & _ & Htrim & _).
    specialize (Htrim "application/json; charset=utf-8" ")]}'"
                  (dumps (explore [w_over_time "a"; w_related "x"; w_region; w_subregion]))).
    rewrite Htrim.
    + vm_compute. reflexivity.
    + reflexivity.
    + apply is_json_type_spec. reflexivity.
    + vm_compute. reflexivity.
    + reflexivity.
Defined.

(** C4 as stated fails: the answer of this session has no Content-Type
    header, so that its content-type is none of the three accepted ones,
    and [_get_data] raises [KeyError] and no [ResponseError]. *)
Lemma get_data_headerless_key_error :
  let response := @service headerless [] (sent GENERAL_URL GET_METHOD ∅) in
  let outcome := (@_get_data headerless GENERAL_URL GET_METHOD 4 ∅ fresh).1 in
  (forall ct, content_type response = Some ct -> ~ json_content_type ct)
  /\ outcome = Raise KeyError
  /\ ~ (exists message r, outcome = Raise (ResponseError message r)).
Proof.
  cbn zeta. split; [|split].
  - intros ct Hct. vm_compute in Hct. discriminate.
  - vm_compute. reflexivity.
  - intros [message [r Hr]]. vm_compute in Hr. discriminate.
Qed.

Lemma interest_over_time_normalizes_witness :
  (@interest_over_time over_time_session (resolved over_time_session)).1
  = Ok (JList [obj [("time", JInt 1471132800); ("value", JInt 58);
                    ("formattedTime", JStr "Aug 14 - Aug 20 2016")]]).
Proof.
  refine (f_equal fst
    (interest_over_time_normalizes (H:=over_time_session) (resolved over_time_session)
       (@timeline_fetch over_time_session (resolved over_time_session)).2 [timeline_entry] _ _ _)).
  - vm_compute. reflexivity.
  - constructor; [|constructor].
    pose proof (timeline_record_intro (H:=over_time_session) timeline_fields
                  (JStr "58") (JStr "1471132800") (JStr "58") 1471132800 58
                  eq_refl eq_refl eq_refl eq_refl eq_refl) as Hrec.
    vm_compute in Hrec |- *. exact Hrec.
Defined.

Lemma related_queries_first_only_witness :
  @related_queries related_session (resolved related_session)
  = (Ok (JList
           [obj [("rankedKeyword",
                  JList [obj [("query", JStr "ugly christmas shirt"); ("value", JInt 100)]])];
            obj [("risingKeywords",
                  JList [obj [("query", JStr "christmas shirt ideas");
                              ("value", JStr "+250%")]])]]),
     set_ses (ses (resolved related_session)
              ++ [@widget_request related_session RELATED_QUERIES_URL
                    (keyword_request "x") (JStr "tok-x") 360])
       (resolved related_session))
  /\ related_queries_widget_list (resolved related_session)
     = [w_related "x"; w_related "y"].
Proof.
  assert (Hl : related_queries_widget_list (resolved related_session)
               = w_related "x" :: [w_related "y"]) by (vm_compute; reflexivity).
  split; [|exact Hl].
  pose proof (related_queries_first_only (H:=related_session) (resolved related_session)
                (w_related "x") [w_related "y"] Hl) as (_ & _ & Hnorm).
  assert (Hf : @ranked_fetch related_session (w_related "x") (resolved related_session)
               = (Ok (JList [JObj top_list; JObj rising_list]),
                  (@ranked_fetch related_session (w_related "x")
                     (resolved related_session)).2)) by (vm_compute; reflexivity).
  assert (Ht : Forall2 (@top_entry related_session) [JObj top_keyword]
                 [JObj (delete "formattedValue"
                          (delete "link" (<["value" := JInt 100]> top_keyword)))]).
  { constructor; [|constructor]. exists top_keyword, (JInt 100), 100.
    repeat split; try reflexivity; eexists; reflexivity. }
  assert (Hr : Forall2 rising_entry [JObj rising_keyword]
                 [JObj (delete "formattedValue"
                          (<["value" := JStr "+250%"]> (delete "link" rising_keyword)))]).
  { constructor; [|constructor]. exists rising_keyword, (JStr "+250%").
    repeat split; try reflexivity; eexists; reflexivity. }
  destruct (Hnorm _ top_list rising_list _ _ _ _ Hf eq_refl Ht eq_refl Hr) as [Hw _].
  vm_compute in Hw |- *. exact Hw.
Defined.

Lemma related_queries_normalizes_witness :
  (@related_queries related_session (resolved related_session)).1
  = Ok (JList
          [obj [("rankedKeyword",
                 JList [obj [("query", JStr "ugly christmas shirt"); ("value", JInt 100)]])];
           obj [("risingKeywords",
                 JList [obj [("query", JStr "christmas shirt ideas");
                             ("value", JStr "+250%")]])]]).
Proof.
  assert (Hl : related_queries_widget_list (resolved related_session)
               = w_related "x" :: [w_related "y"]) by (vm_compute; reflexivity).
  assert (Hf : @ranked_fetch related_session (w_related "x") (resolved related_session)
               = (Ok (JList [JObj top_list; JObj rising_list]),
                  (@ranked_fetch related_session (w_related "x")
                     (resolved related_session)).2)) by (vm_compute; reflexivity).
  assert (Ht : Forall2 (@top_entry related_session) [JObj top_keyword]
                 [JObj (delete "formattedValue"
                          (delete "link" (<["value" := JInt 100]> top_keyword)))]).
  { constructor; [|constructor]. exists top_keyword, (JInt 100), 100.
    repeat split; try reflexivity; eexists; reflexivity. }
  assert (Hr : Forall2 rising_entry [JObj rising_keyword]
                 [JObj (delete "formattedValue"
                          (<["value" := JStr "+250%"]> (delete "link" rising_keyword)))]).
  { constructor; [|constructor]. exists rising_keyword, (JStr "+250%").
    repeat split; try reflexivity; eexists; reflexivity. }
  pose proof (related_queries_normalizes (H:=related_session) _ _ _ _
                top_list rising_list _ _ _ _ Hl Hf eq_refl Ht eq_refl Hr) as Hw.
  apply (f_equal fst) in Hw. vm_compute in Hw |- *. exact Hw.
Defined.

(** C6 as stated fails: on the [rankedList] of two entries of section 8 of
    the specification, where the [value] of the top entry is [["100"]],
    [related_queries] raises [TypeError] at [int(kw[u'value'])] and
    returns nothing. *)
Lemma related_queries_fixture_raises :
  (@ranked_fetch fixture_session (w_related "x") (resolved fixture_session)).1
  = Ok (JList [JObj fixture_top; JObj fixture_rising])
  /\ (@related_queries fixture_session (resolved fixture_session)).1 = Raise TypeError.
Proof. split; vm_compute; reflexivity. Qed.

Lemma related_queries_empty_witness :
  @related_queries rejecting fresh = (Ok JNull, fresh).
Proof. apply (related_queries_empty (H:=rejecting) fresh). reflexivity. Defined.

(** C9 as stated fails: with [geo] empty, [interest_by_region] changes
    the request of the interest-by-region widget the resolver stored. *)
Lemma interest_by_region_patches_widget :
  ~ (forall (R : Runtime) (resolution : string) (self : GoogleTrendsAPI),
       Py.getitem (interest_by_region_widget (interest_by_region resolution self).2)
         "request"
       = Py.getitem (interest_by_region_widget self) "request").
Proof.
  intros Hall.
  specialize (Hall region_first "COUNTRY" (resolved region_first)).
  vm_compute in Hall. discriminate Hall.
Qed.

Lemma fetchers_widget_frame_witness :
  widget_set (@interest_by_region region_first "COUNTRY" (resolved region_first)).2
  = (w_over_time "a",
     widget "Interest by region" "tok-region"
       (obj [("geo", obj []); ("resolution", JStr "COUNTRY")]),
     [w_related "x"])
  /\ widget_set (@interest_by_region region_first "COUNTRY" fresh).2 = widget_set fresh.
Proof.
  pose proof (fetchers_widget_frame (H:=region_first) "COUNTRY" (resolved region_first))
    as (_ & _ & _ & Hpatch).
  pose proof (fetchers_widget_frame (H:=region_first) "COUNTRY" fresh)
    as (_ & _ & Hkeep & _).
  split.
  - assert (Hg : geo (resolved region_first) = "") by (vm_compute; reflexivity).
    assert (Hw : interest_by_region_widget (resolved region_first) = JObj region_fields)
      by (vm_compute; reflexivity).
    specialize (Hpatch region_fields region_request Hg Hw eq_refl).
    vm_compute in Hpatch |- *. exact Hpatch.
  - apply Hkeep. discriminate.
Defined.

End Runs.

(** ** Further properties of the decoder *)

Section DecoderMore.
Context `{Runtime}.

Lemma drop_chars_all (n : nat) (s : string) :
  (String.length s <= n)%nat -> Py.drop_chars n s = "".
Proof.
  revert s. induction n as [|n IH]; intros s Hn.
  - destruct s; [reflexivity | cbn in Hn; lia].
  - destruct s as [|c s]; [reflexivity|]. cbn in Hn |- *. apply IH. lia.
Qed.

(** A response without a Content-Type header makes [_get_data] raise
    [KeyError], whatever its body is, after the request was sent. *)
Theorem get_data_without_content_type url method trim_chars kwargs self :
  content_type (service (ses self) (sent url method kwargs)) = None ->
  _get_data url method trim_chars kwargs self
  = (Raise KeyError, set_ses (ses self ++ [sent url method kwargs]) self).
Proof.
  intros Hc. unfold _get_data. fold (sent url method kwargs). now rewrite Hc.
Qed.

(** Whatever the service answers, a call of [_get_data] adds one request
    to the session, a POST when [method] is ['post'] and a GET for every
    other method, and changes nothing else of the instance. *)
Theorem get_data_one_request url method trim_chars kwargs self :
  let self' := (_get_data url method trim_chars kwargs self).2 in
  ses self' = ses self ++ [mkRequest (if String.eqb method "post" then Post else Get)
                             url kwargs]
  /\ context self' = context self
  /\ widget_set self' = widget_set self.
Proof.
  cbn zeta. rewrite get_data_state. repeat split.
Qed.

(** With [trim_chars] at or beyond the length of the body of a response of
    an accepted content-type, [_get_data] hands the empty string to
    [json.loads]. *)
Theorem get_data_trims_whole_body url method trim_chars kwargs self ct :
  let response := service (ses self) (sent url method kwargs) in
  content_type response = Some ct ->
  json_content_type ct ->
  (Z.of_nat (String.length (text response)) <= trim_chars)%Z ->
  (_get_data url method trim_chars kwargs self).1 = parsed "".
Proof.
  intros response Hct Hj Hk. unfold _get_data. fold (sent url method kwargs).
  fold response. rewrite Hct.
  apply is_json_type_spec in Hj. rewrite Hj.
  rewrite slice_from_nonneg by lia.
  rewrite drop_chars_all by lia. unfold parsed.
  now destruct (json_loads "").
Qed.

End DecoderMore.

(** ** Further properties of the widget resolver *)

Section ResolverMore.
Context `{Runtime}.

Lemma keeps_tokens_fetch token_payload : keeps_widgets (tokens_fetch token_payload).
Proof.
  unfold tokens_fetch. apply keeps_bind; [apply keeps_get_data|].
  intros data. apply keeps_lift.
Qed.

Lemma tokens_loop_related widgets frt self :
  Forall titled widgets ->
  related_queries_widget_list (tokens_loop widgets frt self).2
  = related_queries_widget_list self ++ List.filter (title_is "Related queries") widgets.
Proof.
  intros Ht. revert frt self.
  induction Ht as [|w ws Htw _ IH]; intros frt self.
  - cbn. now rewrite app_nil_r.
  - rewrite (tokens_loop_cons _ _ _ _ Htw), IH. cbn [List.filter].
    unfold classified.
    destruct (title_is "Interest over time" w), (region_title w && frt),
      (title_is "Related queries" w); cbn; now rewrite <- ?app_assoc.
Qed.

Lemma tokens_loop_no_region widgets frt self :
  Forall (fun x => region_title x = false) widgets ->
  interest_by_region_widget (tokens_loop widgets frt self).2
  = interest_by_region_widget self.
Proof.
  intros Hr. revert frt self.
  induction Hr as [|w ws Hw _ IH]; intros frt self; [reflexivity|].
  destruct (titled_dec w) as [Ht|Hno].
  - rewrite (tokens_loop_cons _ _ _ _ Ht), IH. unfold classified. rewrite Hw.
    cbn [andb].
    destruct (title_is "Interest over time" w), (title_is "Related queries" w);
      reflexivity.
  - now rewrite (tokens_loop_stops _ _ _ _ Hno).
Qed.

(** After a call of the resolver on widgets that all have a title, the list
    of related-queries widgets holds the widgets titled "Related queries"
    of the answer, in the order of the answer, and nothing of what it
    held before. *)
Theorem tokens_related_list_replaced token_payload self self1 widgets :
  tokens_fetch token_payload self = (Ok (JList widgets), self1) ->
  Forall titled widgets ->
  related_queries_widget_list (_tokens token_payload self).2
  = List.filter (title_is "Related queries") widgets.
Proof.
  intros Hf Ht. rewrite (tokens_run _ _ _ _ Hf).
  now rewrite (tokens_loop_related _ _ _ Ht).
Qed.

(** When no widget of the answer is titled "Interest over time", the
    resolver leaves the interest-over-time widget of the instance as it
    was before the call, and likewise the interest-by-region widget when
    no widget has a region title. *)
Theorem tokens_keeps_unmatched_widgets token_payload self self1 widgets :
  tokens_fetch token_payload self = (Ok (JList widgets), self1) ->
  (Forall (fun x => title_is "Interest over time" x = false) widgets ->
   interest_over_time_widget (_tokens token_payload self).2
   = interest_over_time_widget self)
  /\ (Forall (fun x => region_title x = false) widgets ->
      interest_by_region_widget (_tokens token_payload self).2
      = interest_by_region_widget self).
Proof.
  intros Hf. rewrite (tokens_run _ _ _ _ Hf).
  pose proof (keeps_tokens_fetch token_payload self) as Hk.
  rewrite Hf in Hk. cbn [snd] in Hk. unfold widget_set in Hk.
  injection Hk as Hiot Hreg _.
  split; intros Hn.
  - rewrite (tokens_loop_keeps_over_time _ _ _ Hn). exact Hiot.
  - rewrite (tokens_loop_no_region _ _ _ Hn). exact Hreg.
Qed.

(** When the request of the resolver fails (a rejected content-type, a
    body that is no JSON, an answer without ['widgets']), [_tokens] raises
    what the request raised and leaves the three widget attributes as
    they were: the list of related-queries widgets is not cleared. *)
Theorem tokens_failed_fetch token_payload self self1 e :
  tokens_fetch token_payload self = (Raise e, self1) ->
  _tokens token_payload self = (Raise e, self1)
  /\ widget_set self1 = widget_set self.
Proof.
  intros Hf. split.
  - unfold _tokens. rewrite bind_run, Hf. reflexivity.
  - pose proof (keeps_tokens_fetch token_payload self) as Hk.
    now rewrite Hf in Hk.
Qed.

(** A widget without a ['title'] stops the resolver with the exception of
    the lookup, and the widgets after it are not classified: the instance
    is as the loop over the widgets before it leaves it, so that the list
    of related-queries widgets holds those of the widgets before it, and
    the interest-over-time and the interest-by-region widget are those
    from before the call unless a widget before it has the title,
    whatever the widgets after it are. *)
Theorem tokens_untitled_widget_aborts token_payload self self1 pre widget post e :
  tokens_fetch token_payload self = (Ok (JList (pre ++ widget :: post)), self1) ->
  Forall titled pre ->
  Py.getitem widget "title" = Raise e ->
  _tokens token_payload self
  = (Raise e, (tokens_loop pre true (set_related_queries_widget_list [] self1)).2)
  /\ related_queries_widget_list (_tokens token_payload self).2
     = List.filter (title_is "Related queries") pre
  /\ (Forall (fun x => title_is "Interest over time" x = false) pre ->
      interest_over_time_widget (_tokens token_payload self).2
      = interest_over_time_widget self)
  /\ (Forall (fun x => region_title x = false) pre ->
      interest_by_region_widget (_tokens token_payload self).2
      = interest_by_region_widget self).
Proof.
  intros Hf Ht He. rewrite (tokens_run _ _ _ _ Hf).
  assert (Hrun : forall frt s,
    tokens_loop (pre ++ widget :: post) frt s
    = (Raise e, (tokens_loop pre frt s).2)).
  { clear Hf. induction Ht as [|w ws Htw _ IH]; intros frt s.
    - cbn [app tokens_loop]. rewrite bind_run.
      unfold tokens_body. rewrite run_lift, He. reflexivity.
    - change ((w :: ws) ++ widget :: post) with (w :: (ws ++ widget :: post)).
      now rewrite !(tokens_loop_cons _ _ _ _ Htw), IH. }
  pose proof (keeps_tokens_fetch token_payload self) as Hk.
  rewrite Hf in Hk. cbn [snd] in Hk. unfold widget_set in Hk.
  injection Hk as Hiot Hreg _.
  rewrite Hrun. cbn [fst snd]. split; [reflexivity|]. split; [|split].
  - now rewrite (tokens_loop_related _ _ _ Ht).
  - intros Hn. rewrite (tokens_loop_keeps_over_time _ _ _ Hn). exact Hiot.
  - intros Hn. rewrite (tokens_loop_no_region _ _ _ Hn). exact Hreg.
Qed.

(** The loop of the resolver drops the widgets whose title is none of the
    four it looks for: among widgets that have a title, they can be
    taken out of the array without a change in the outcome. *)
Theorem tokens_loop_ignores_other_titles widgets frt self :
  Forall titled widgets ->
  tokens_loop widgets frt self = tokens_loop (List.filter known_title widgets) frt self.
Proof.
  intros Ht. revert frt self.
  induction Ht as [|w ws Htw _ IH]; intros frt self; [reflexivity|].
  rewrite (tokens_loop_cons _ _ _ _ Htw). cbn [List.filter].
  destruct (known_title w) eqn:Hk.
  - rewrite (tokens_loop_cons _ _ _ _ Htw). apply IH.
  - unfold known_title in Hk.
    apply orb_false_iff in Hk as [Hk Hrel]. apply orb_false_iff in Hk as [Hiot Hreg].
    rewrite IH. unfold classified. rewrite Hiot, Hreg, Hrel. cbn [andb negb].
    now rewrite andb_true_r.
Qed.

End ResolverMore.

(** ** What the methods leave of the query context *)

Section ContextFrame.
Context `{Runtime}.

Lemma keeps_by_bind {A B C : Type} (proj : GoogleTrendsAPI -> C) (c : M A) (f : A -> M B) :
  keeps proj c -> (forall a, keeps proj (f a)) -> keeps proj (c ≫= f).
Proof.
  intros Hc Hf self. rewrite bind_run. specialize (Hc self).
  destruct (c self) as [[a|e] self1]; cbn [snd] in *; [|exact Hc].
  now rewrite Hf.
Qed.

Lemma keeps_by_lift {A C : Type} (proj : GoogleTrendsAPI -> C) (r : result A) :
  keeps proj (lift r).
Proof. intros self. reflexivity. Qed.



Lemma context_get_data url method trim_chars kwargs :
  keeps context (_get_data url method trim_chars kwargs).
Proof. intros self. now rewrite get_data_state. Qed.


Lemma context_tokens_loop widgets frt : keeps context (tokens_loop widgets frt).
Proof.
  revert frt. induction widgets as [|w ws IH]; intros frt self; [reflexivity|].
  destruct (titled_dec w) as [Ht|Hno].
  - rewrite (tokens_loop_cons _ _ _ _ Ht), IH. unfold classified.
    destruct (title_is "Interest over time" w), (region_title w && frt),
      (title_is "Related queries" w); reflexivity.
  - now rewrite (tokens_loop_stops _ _ _ _ Hno).
Qed.

Lemma context_tokens token_payload : keeps context (_tokens token_payload).
Proof.
  unfold _tokens, tokens_fetch.
  repeat (apply keeps_by_bind; [|intros ?]);
    auto using @keeps_by_lift, context_get_data, context_tokens_loop.
  intros self. reflexivity.
Qed.



(** [build_payload] stores the keyword list and the geography it is given
    before it sends its request: they are the query context afterwards
    whatever the service answers, with the locale and the timezone as
    they were. *)
Theorem build_payload_sets_context (kws : list string) (cat : Z)
    (timeframe g gprop : string) (self : GoogleTrendsAPI) :
  context (build_payload kws cat timeframe g gprop self).2 = (tz self, hl self, g, kws).
Proof.
  unfold build_payload. rewrite !run_assign, !run_attr.
  now rewrite context_tokens.
Qed.

End ContextFrame.

(** ** Further properties of [interest_over_time] *)

Section OverTimeMore.
Context `{Runtime}.

(** When the interest-over-time widget has a request and a token,
    [interest_over_time] sends, whatever comes back, one GET to the
    multiline endpoint whose [params] hold the text [json.dumps] makes
    of the request, the token and the timezone of the instance. *)
Theorem interest_over_time_request (self : GoogleTrendsAPI) (request token : json) :
  Py.getitem (interest_over_time_widget self) "request" = Ok request ->
  Py.getitem (interest_over_time_widget self) "token" = Ok token ->
  ses (interest_over_time self).2
  = ses self ++ [widget_request INTEREST_OVER_TIME_URL request token (tz self)].
Proof.
  intros Hr Ht. unfold interest_over_time, timeline_fetch, widget_payload.
  rewrite bind_run, run_attr, bind_run, run_lift, Hr, run_lift, Ht, run_attr.
  cbn [mret M_ret]. rewrite bind_run.
  match goal with
  | |- context [_get_data ?u ?m ?k ?kw self] =>
      pose proof (get_data_state u m k kw self) as Hs;
      destruct (_get_data u m k kw self) as [[data|e] self1]
  end; cbn [snd] in Hs; subst self1; [|reflexivity].
  unfold lift at 1.
  destruct (d ← Py.getitem data "default"; Py.getitem d "timelineData") as [tl|e];
    [|reflexivity].
  unfold lift. reflexivity.
Qed.

(** A widget without a ['request'], as [__init__] leaves both widgets,
    makes [interest_over_time] and [interest_by_region] raise the
    exception of the lookup before anything is sent or changed. *)
Theorem fetchers_need_resolved_widget (self : GoogleTrendsAPI) (e : exn) :
  (Py.getitem (interest_over_time_widget self) "request" = Raise e ->
   interest_over_time self = (Raise e, self))
  /\ (Py.getitem (interest_by_region_widget self) "request" = Raise e ->
      forall resolution, interest_by_region resolution self = (Raise e, self)).
Proof.
  split.
  - intros Hr. unfold interest_over_time, timeline_fetch, widget_payload.
    now rewrite bind_run, run_attr, bind_run, run_lift, Hr.
  - intros Hr resolution. unfold interest_by_region. rewrite run_attr.
    destruct (String.eqb (geo self) "").
    + rewrite bind_run. unfold patch_resolution.
      now rewrite run_attr, run_lift, Hr.
    + rewrite bind_run. cbn [mret M_ret]. unfold widget_payload.
      now rewrite run_attr, bind_run, run_lift, Hr.
Qed.

Lemma mapR_app_raise {A B : Type} (body : A -> result B) (pre post : list A)
    (outs : list B) (x : A) (e : exn) :
  Forall2 (fun a b => body a = Ok b) pre outs ->
  body x = Raise e ->
  mapR body (pre ++ x :: post) = Raise e.
Proof.
  intros Hpre Hx. induction Hpre as [|a b pre outs Hab _ IH]; cbn [app mapR].
  - now rewrite Hx.
  - now rewrite Hab, IH.
Qed.

Lemma mapR_length {A B : Type} (body : A -> result B) (l : list A) (outs : list B) :
  mapR body l = Ok outs -> length outs = length l.
Proof.
  revert outs. induction l as [|x l IH]; intros outs Hm; cbn [mapR] in Hm.
  - now inversion Hm.
  - destruct (body x) as [y|e]; [|discriminate].
    destruct (mapR body l) as [ys|e]; [|discriminate].
    inversion Hm. cbn. f_equal. now apply IH.
Qed.

(** A record of [timelineData] without [formattedValue] makes
    [interest_over_time] raise [KeyError]: the records normalized before
    it are not returned. *)
Theorem interest_over_time_missing_field (self self1 : GoogleTrendsAPI)
    (pre outs post : list json) (m : gmap string json) :
  timeline_fetch self = (Ok (JList (pre ++ JObj m :: post)), self1) ->
  Forall2 timeline_record pre outs ->
  m !! "formattedValue" = None ->
  interest_over_time self = (Raise KeyError, self1).
Proof.
  intros Hf Hpre Hm. unfold interest_over_time. rewrite bind_run, Hf.
  unfold lift, Py.for_in_place.
  rewrite (mapR_app_raise clean_timeline pre post outs (JObj m) KeyError);
    [reflexivity| |].
  - eapply Forall2_impl; [exact Hpre|]. intros d out. apply timeline_record_run.
  - unfold clean_timeline. cbn [Py.delitem]. now rewrite Hm.
Qed.

(** When [interest_over_time] returns, on a [timelineData] that is a list,
    it returns a list with one record per record of [timelineData]. *)
Theorem interest_over_time_length (self self1 self2 : GoogleTrendsAPI)
    (records : list json) (v : json) :
  timeline_fetch self = (Ok (JList records), self1) ->
  interest_over_time self = (Ok v, self2) ->
  exists outs, v = JList outs /\ length outs = length records /\ self2 = self1.
Proof.
  intros Hf Hr. unfold interest_over_time in Hr. rewrite bind_run, Hf in Hr.
  unfold lift, Py.for_in_place in Hr.
  destruct (mapR clean_timeline records) as [outs|e] eqn:Hm; cbn in Hr; [|discriminate].
  inversion Hr; subst. exists outs. split; [reflexivity|].
  split; [|reflexivity]. exact (mapR_length _ _ _ Hm).
Qed.

End OverTimeMore.

(** ** Further properties of [interest_by_region] *)

Section RegionMore.
Context `{Runtime}.

Lemma clean_geo_run (d out : json) : geo_record d out -> clean_geo d = Ok out.
Proof.
  intros (m & v & v0 & n & -> & [mv Hmv] & [co Hco] & [fv Hfv] & Hv & Hv0 & Hn & ->).
  unfold clean_geo. cbn [Py.delitem]. rewrite Hmv. cbn [mbind result_bind Py.delitem].
  rewrite lookup_delete_ne by discriminate. rewrite Hco.
  cbn [mbind result_bind Py.delitem].
  rewrite !lookup_delete_ne by discriminate. rewrite Hfv.
  cbn [mbind result_bind Py.getitem].
  rewrite !lookup_delete_ne by discriminate. rewrite Hv.
  cbn [mbind result_bind]. rewrite Hv0. cbn [mbind result_bind]. rewrite Hn.
  reflexivity.
Qed.

Lemma interest_by_region_split (resolution : string) (self : GoogleTrendsAPI) :
  interest_by_region resolution self
  = match geo_fetch resolution self with
    | (Ok geoMapData, self1) => (Py.for_in_place clean_geo geoMapData, self1)
    | (Raise e, self1) => (Raise e, self1)
    end.
Proof.
  unfold interest_by_region, geo_fetch. rewrite !run_attr, !bind_run.
  destruct ((if String.eqb (geo self) "" then patch_resolution resolution else mret tt)
              self) as [[[]|e] s1]; [|reflexivity].
  rewrite !run_attr, !bind_run.
  destruct (widget_payload (interest_by_region_widget s1) s1) as [[payload|e] s2];
    [|reflexivity].
  rewrite !bind_run.
  destruct (_get_data INTEREST_BY_REGION_URL GET_METHOD 5 {[ "params" := payload ]} s2)
    as [[data|e] s3]; [|reflexivity].
  rewrite run_lift. unfold lift at 2.
  now destruct (d ← Py.getitem data "default"; Py.getitem d "geoMapData").
Qed.

(** When the endpoint returns the records [records] as [geoMapData], each
    with [maxValueIndex], [coordinates], [formattedValue] and a [value]
    whose first element [int] accepts, [interest_by_region] returns, in
    the same order, the records without the three fields and with [value]
    replaced by the integer. *)
Theorem interest_by_region_normalizes (resolution : string)
    (self self1 : GoogleTrendsAPI) (records outs : list json) :
  geo_fetch resolution self = (Ok (JList records), self1) ->
  Forall2 geo_record records outs ->
  interest_by_region resolution self = (Ok (JList outs), self1).
Proof.
  intros Hf Hrec. rewrite interest_by_region_split, Hf.
  unfold Py.for_in_place.
  rewrite (mapR_Forall2 clean_geo records outs); [reflexivity|].
  eapply Forall2_impl; [exact Hrec|]. intros d out. apply clean_geo_run.
Qed.

Lemma widget_payload_run (widget : gmap string json) (request token : json)
    (self : GoogleTrendsAPI) :
  widget !! "request" = Some request ->
  widget !! "token" = Some token ->
  widget_payload (JObj widget) self
  = (Ok (JObj {[ "req" := JStr (json_dumps request); "token" := token;
                 "tz" := JInt (tz self) ]}), self).
Proof.
  intros Hr Ht. unfold widget_payload.
  rewrite run_lift. cbn [Py.getitem]. rewrite Hr.
  rewrite run_lift. cbn [Py.getitem]. rewrite Ht.
  now rewrite run_attr.
Qed.

Lemma region_fetch_ses (widget : gmap string json) (request token : json)
    (self : GoogleTrendsAPI) :
  interest_by_region_widget self = JObj widget ->
  widget !! "request" = Some request ->
  widget !! "token" = Some token ->
  ses ((widget ← attr interest_by_region_widget;
        region_payload ← widget_payload widget;
        data ← _get_data INTEREST_BY_REGION_URL GET_METHOD 5
                 {[ "params" := region_payload ]};
        geoMapData ← lift (d ← Py.getitem data "default"; Py.getitem d "geoMapData");
        lift (Py.for_in_place clean_geo geoMapData)) self).2
  = ses self ++ [widget_request INTEREST_BY_REGION_URL request token (tz self)].
Proof.
  intros Hw Hr Ht. rewrite run_attr, Hw, bind_run.
  rewrite (widget_payload_run widget request token self Hr Ht), bind_run.
  match goal with
  | |- context [_get_data ?u ?m ?k ?kw self] =>
      pose proof (get_data_state u m k kw self) as Hs;
      destruct (_get_data u m k kw self) as [[data|e] self1]
  end; cbn [snd] in Hs; subst self1; [|reflexivity].
  rewrite run_lift.
  destruct (d ← Py.getitem data "default"; Py.getitem d "geoMapData") as [g|e];
    [|reflexivity].
  unfold lift. reflexivity.
Qed.

(** The request of [interest_by_region]: one GET to the comparedgeo
    endpoint whose [params] hold the token of the interest-by-region
    widget and the text of its request, in which [resolution] is set to
    the argument when the geography of the query context is empty and
    which is as the resolver stored it otherwise. *)
Theorem interest_by_region_request (resolution : string) (self : GoogleTrendsAPI)
    (widget request : gmap string json) (token : json) :
  interest_by_region_widget self = JObj widget ->
  widget !! "request" = Some (JObj request) ->
  widget !! "token" = Some token ->
  ses (interest_by_region resolution self).2
  = ses self ++
      [widget_request INTEREST_BY_REGION_URL
         (JObj (if String.eqb (geo self) ""
                then <["resolution" := JStr resolution]> request else request))
         token (tz self)].
Proof.
  intros Hw Hr Ht. unfold interest_by_region. rewrite run_attr.
  destruct (String.eqb (geo self) "").
  - rewrite bind_run, (patch_resolution_run resolution self widget request Hw Hr).
    erewrite region_fetch_ses; [reflexivity|reflexivity| |].
    + apply lookup_insert_eq.
    + now rewrite lookup_insert_ne by discriminate.
  - rewrite bind_run. cbn [mret M_ret].
    now rewrite (region_fetch_ses widget (JObj request) token self Hw Hr Ht).
Qed.



End RegionMore.

(** ** Further properties of [related_queries] *)

Section RelatedMore.
Context `{Runtime}.

(** A [rankedList] with the top list alone makes [related_queries] raise
    [IndexError] once the top list is normalized. *)
Theorem related_queries_short_list (self self1 : GoogleTrendsAPI) (widget : json)
    (rest : list json) (top : gmap string json) (tops tops' : list json) :
  related_queries_widget_list self = widget :: rest ->
  ranked_fetch widget self = (Ok (JList [JObj top]), self1) ->
  top !! "rankedKeyword" = Some (JList tops) ->
  Forall2 top_entry tops tops' ->
  related_queries self = (Raise IndexError, self1).
Proof.
  intros Hl Hf Ht Hts. rewrite (related_queries_cons self widget rest Hl), Hf.
  cbn [fst snd mbind result_bind]. f_equal.
  unfold clean_ranked. rewrite getindex_0.
  cbn [mbind result_bind Py.getitem]. rewrite Ht.
  cbn [mbind result_bind Py.for_in_place fmap result_fmap].
  rewrite (mapR_Forall2 clean_top tops tops');
    [|eapply Forall2_impl; [exact Hts|]; intros ? ?; apply clean_top_run].
  reflexivity.
Qed.

(** When the keyword cannot be read in the request of the first
    related-queries widget, [related_queries] raises the exception of the
    lookup and sends nothing. *)
Theorem related_queries_without_keyword (self : GoogleTrendsAPI) (widget : json)
    (rest : list json) (e : exn) :
  related_queries_widget_list self = widget :: rest ->
  widget_keyword widget = Raise e ->
  related_queries self = (Raise e, self).
Proof.
  intros Hl Hk. rewrite (related_queries_cons self widget rest Hl).
  unfold ranked_fetch. now rewrite run_lift, Hk.
Qed.

End RelatedMore.

(** ** The fetchers outside the token protocol *)

Section PlainFetchers.
Context `{Runtime}.


Lemma fetch_then_lookup_ses {A : Type} url method trim_chars kwargs
    (f : json -> result A) (self : GoogleTrendsAPI) :
  ses ((data ← _get_data url method trim_chars kwargs; lift (f data)) self).2
  = ses self ++ [sent url method kwargs].
Proof.
  rewrite bind_run.
  pose proof (get_data_state url method trim_chars kwargs self) as Hs.
  destruct (_get_data url method trim_chars kwargs self) as [[data|e] self1];
    cbn [snd] in Hs; subst self1; reflexivity.
Qed.

(** The requests of the three fetchers, whatever comes back:
    [trending_searches] posts its fixed form as [data]; [top_charts] posts
    too, with its six entries as [params]; [suggestions] sends a GET to the
    autocomplete address followed by the quoted keyword, with the locale
    of the instance as [params]. *)
Theorem plain_fetchers_requests (date cid : json) (g cat : string)
    (quote : string -> string) (keyword : string) (self : GoogleTrendsAPI) :
  ses (trending_searches self).2
  = ses self ++
      [mkRequest Post TRENDING_SEARCHES_URL
         {[ "data" := JObj {[ "ajax" := JInt 1; "pn" := JStr "p1";
                              "htd" := JStr ""; "htv" := JStr "l" ]} ]}]
  /\ ses (top_charts date cid g cat self).2
     = ses self ++
         [mkRequest Post TOP_CHARTS_URL
            {[ "params" := JObj (list_to_map
                 [("ajax", JInt 1); ("lp", JInt 1); ("geo", JStr g);
                  ("date", date); ("cat", JStr cat); ("cid", cid)]) ]}]
  /\ ses (suggestions quote keyword self).2
     = ses self ++
         [mkRequest Get (SUGGESTIONS_URL +:+ quote keyword)
            {[ "params" := JObj {[ "hl" := JStr (hl self) ]} ]}].
Proof.
  split; [|split].
  - unfold trending_searches. now rewrite fetch_then_lookup_ses.
  - unfold top_charts. now rewrite fetch_then_lookup_ses.
  - unfold suggestions. rewrite run_attr. now rewrite fetch_then_lookup_ses.
Qed.

End PlainFetchers.

(** ** The login form of [_connect] *)

Section LoginForm.

Lemma scrape_lookup (name : string) (acc u : gmap string string) :
  scrape acc u !! name
  = match field_value name u with
    | Some value => Some value
    | None => acc !! name
    end.
Proof.
  unfold scrape, field_value.
  destruct (u !! "value") as [value|]; [|reflexivity].
  destruct (u !! "name") as [n|]; [|reflexivity].
  destruct (String.eqb_spec n name) as [->|Hne].
  - apply lookup_insert_eq.
  - now apply lookup_insert_ne.
Qed.

Lemma foldl_scrape_lookup (name : string) (soup_login : list (gmap string string))
    (acc : gmap string string) :
  foldl scrape acc soup_login !! name
  = match last (omap (field_value name) soup_login) with
    | Some value => Some value
    | None => acc !! name
    end.
Proof.
  revert acc. induction soup_login as [|u l IH]; intros acc; [reflexivity|].
  cbn [foldl omap list_omap]. rewrite IH, scrape_lookup.
  destruct (field_value name u) as [value|]; [|reflexivity].
  rewrite last_cons. now destruct (last (omap (field_value name) l)).
Qed.

(** The form [_connect] posts holds the user name and the password of the
    instance under [Email] and [Passwd], whatever the login page has in
    inputs of these names. *)
Theorem form_data_credentials (soup_login : list (gmap string string))
    (username password : string) :
  form_data soup_login username password !! "Email" = Some username
  /\ form_data soup_login username password !! "Passwd" = Some password.
Proof.
  unfold form_data. split.
  - rewrite lookup_insert_ne by discriminate. apply lookup_insert_eq.
  - apply lookup_insert_eq.
Qed.

(** Every other field of the form has the value of the last input of that
    name among the inputs that have both a name and a value, and is
    absent when there is none: an input without a value is not posted. *)
Theorem form_data_scraped (soup_login : list (gmap string string))
    (username password name : string) :
  name <> "Email" -> name <> "Passwd" ->
  form_data soup_login username password !! name
  = last (omap (field_value name) soup_login).
Proof.
  intros HE HP. unfold form_data.
  rewrite !lookup_insert_ne by congruence.
  rewrite foldl_scrape_lookup.
  now destruct (last (omap (field_value name) soup_login)).
Qed.

End LoginForm.

(** ** The further properties on concrete sessions *)

Section MoreRuns.
Import Demo.

Lemma get_data_without_content_type_witness :
  @_get_data headerless GENERAL_URL GET_METHOD 4 ∅ fresh
  = (Raise KeyError, set_ses [sent GENERAL_URL GET_METHOD ∅] fresh).
Proof.
  apply (get_data_without_content_type (H:=headerless) GENERAL_URL GET_METHOD 4 ∅ fresh).
  reflexivity.
Defined.

Lemma get_data_trims_whole_body_witness :
  (@_get_data prefix_only GENERAL_URL GET_METHOD 5 ∅ fresh).1 = Raise ValueError.
Proof.
  refine (get_data_trims_whole_body (H:=prefix_only) GENERAL_URL GET_METHOD 5 ∅ fresh
            "application/json" _ _ _).
  - reflexivity.
  - apply is_json_type_spec. reflexivity.
  - vm_compute. discriminate.
Defined.

Lemma tokens_related_list_replaced_witness :
  let first := (@_tokens two_queries (shirt_payload two_queries) fresh).2 in
  related_queries_widget_list first = [w_related "x"]
  /\ related_queries_widget_list
       (@_tokens two_queries (second_payload two_queries) first).2
     = [w_related "y"].
Proof.
  cbn zeta. split; [vm_compute; reflexivity|].
  refine (tokens_related_list_replaced (H:=two_queries) (second_payload two_queries)
            (@_tokens two_queries (shirt_payload two_queries) fresh).2
            (@tokens_fetch two_queries (second_payload two_queries)
               (@_tokens two_queries (shirt_payload two_queries) fresh).2).2
            [w_related "y"] _ _).
  - vm_compute. reflexivity.
  - repeat constructor; eexists; reflexivity.
Defined.

Lemma tokens_keeps_unmatched_widgets_witness :
  let first := (@_tokens two_queries (shirt_payload two_queries) fresh).2 in
  interest_over_time_widget (@_tokens two_queries (second_payload two_queries) first).2
  = interest_over_time_widget first
  /\ interest_over_time_widget first = w_over_time "a".
Proof.
  cbn zeta. split; [|vm_compute; reflexivity].
  refine (proj1 (tokens_keeps_unmatched_widgets (H:=two_queries)
                   (second_payload two_queries)
                   (@_tokens two_queries (shirt_payload two_queries) fresh).2
                   (@tokens_fetch two_queries (second_payload two_queries)
                      (@_tokens two_queries (shirt_payload two_queries) fresh).2).2
                   [w_related "y"] _) _).
  - vm_compute. reflexivity.
  - repeat constructor.
Defined.

Lemma tokens_failed_fetch_witness :
  (@_tokens rejecting (shirt_payload rejecting) fresh).1
  = Raise (ResponseError (failure_message html_error) html_error).
Proof.
  refine (f_equal fst
    (proj1 (tokens_failed_fetch (H:=rejecting) (shirt_payload rejecting) fresh
              (@tokens_fetch rejecting (shirt_payload rejecting) fresh).2
              (ResponseError (failure_message html_error) html_error) _))).
  vm_compute. reflexivity.
Defined.

Lemma tokens_untitled_widget_aborts_witness :
  (@_tokens untitled_session (shirt_payload untitled_session) fresh).1 = Raise KeyError
  /\ widget_set (@_tokens untitled_session (shirt_payload untitled_session) fresh).2
     = (JObj ∅, JObj ∅, [w_related "x"]).
Proof.
  pose proof (tokens_untitled_widget_aborts (H:=untitled_session)
                (shirt_payload untitled_session) fresh
                (@tokens_fetch untitled_session (shirt_payload untitled_session) fresh).2
                [w_related "x"] (obj [("token", JStr "tok")])
                [w_over_time "late"; w_region; w_related "y"] KeyError) as Hw.
  destruct Hw as (Hrun & Hrel & Hiot & Hreg).
  - vm_compute. reflexivity.
  - repeat constructor; eexists; reflexivity.
  - reflexivity.
  - split; [now rewrite Hrun|].
    unfold widget_set. rewrite Hrel, Hiot, Hreg by (repeat constructor).
    reflexivity.
Defined.

Lemma tokens_loop_ignores_other_titles_witness :
  tokens_loop [w_over_time "a"; widget "Related topics" "tok" (obj []); w_region] true fresh
  = tokens_loop [w_over_time "a"; w_region] true fresh.
Proof.
  apply (tokens_loop_ignores_other_titles
           [w_over_time "a"; widget "Related topics" "tok" (obj []); w_region] true fresh).
  repeat constructor; eexists; reflexivity.
Defined.

Lemma interest_over_time_request_witness :
  ses (@interest_over_time over_time_session (resolved over_time_session)).2
  = ses (resolved over_time_session)
    ++ [@widget_request over_time_session INTEREST_OVER_TIME_URL
          (obj [("resolution", JStr "WEEK")]) (JStr "a") 360].
Proof.
  refine (interest_over_time_request (H:=over_time_session) (resolved over_time_session)
            (obj [("resolution", JStr "WEEK")]) (JStr "a") _ _);
    vm_compute; reflexivity.
Defined.

Lemma fetchers_need_resolved_widget_witness :
  @interest_over_time over_time_session fresh = (Raise KeyError, fresh)
  /\ @interest_by_region over_time_session "COUNTRY" fresh = (Raise KeyError, fresh).
Proof.
  pose proof (fetchers_need_resolved_widget (H:=over_time_session) fresh KeyError)
    as [Htime Hregion].
  split; [apply Htime | apply Hregion]; reflexivity.
Defined.

Lemma interest_over_time_missing_field_witness :
  (@interest_over_time broken_timeline (resolved broken_timeline)).1 = Raise KeyError.
Proof.
  assert (Hf : @timeline_fetch broken_timeline (resolved broken_timeline)
               = (Ok (JList ([timeline_entry]
                             ++ JObj (list_to_map [("value", JList [JStr "73"]);
                                                   ("time", JStr "1471737600")]) :: [])),
                  (@timeline_fetch broken_timeline (resolved broken_timeline)).2))
    by (vm_compute; reflexivity).
  refine (f_equal fst
    (interest_over_time_missing_field (H:=broken_timeline) _ _ _ _ _ _ Hf _ eq_refl)).
  constructor; [|constructor].
  exact (timeline_record_intro (H:=broken_timeline) timeline_fields
           (JStr "58") (JStr "1471132800") (JStr "58") 1471132800 58
           eq_refl eq_refl eq_refl eq_refl eq_refl).
Defined.

Lemma interest_over_time_length_witness :
  exists outs, length outs = 1%nat
    /\ (@interest_over_time over_time_session (resolved over_time_session)).1
       = Ok (JList outs).
Proof.
  destruct (interest_over_time_length (H:=over_time_session)
              (resolved over_time_session)
              (@timeline_fetch over_time_session (resolved over_time_session)).2
              (@interest_over_time over_time_session (resolved over_time_session)).2
              [timeline_entry]
              (JList [obj [("time", JInt 1471132800); ("value", JInt 58);
                           ("formattedTime", JStr "Aug 14 - Aug 20 2016")]]))
    as (outs & Hv & Hlen & _).
  - vm_compute. reflexivity.
  - vm_compute. reflexivity.
  - exists outs. split; [exact Hlen|]. rewrite <- Hv. vm_compute. reflexivity.
Defined.

Lemma interest_by_region_normalizes_witness :
  (@interest_by_region geo_map_session "REGION" (resolved geo_map_session)).1
  = Ok (JList [obj [("geoCode", JStr "US-TX"); ("geoName", JStr "Texas");
                    ("value", JInt 100)]]).
Proof.
  assert (Hf : @geo_fetch geo_map_session "REGION" (resolved geo_map_session)
               = (Ok (JList [JObj geo_fields]),
                  (@geo_fetch geo_map_session "REGION" (resolved geo_map_session)).2))
    by (vm_compute; reflexivity).
  assert (Hrec : Forall2 (@geo_record geo_map_session) [JObj geo_fields]
                   [JObj (<["value" := JInt 100]>
                            (delete "formattedValue" (delete "coordinates"
                               (delete "maxValueIndex" geo_fields))))]).
  { constructor; [|constructor].
    exists geo_fields, (JList [JInt 100]), (JInt 100), 100.
    repeat split; try reflexivity; eexists; reflexivity. }
  pose proof (interest_by_region_normalizes (H:=geo_map_session) "REGION"
                (resolved geo_map_session) _ _ _ Hf Hrec) as Hw.
  apply (f_equal fst) in Hw. vm_compute in Hw |- *. exact Hw.
Defined.

Lemma interest_by_region_request_witness :
  ses (@interest_by_region region_first "CITY" (resolved region_first)).2
  = ses (resolved region_first)
    ++ [@widget_request region_first INTEREST_BY_REGION_URL
          (obj [("geo", obj []); ("resolution", JStr "CITY")]) (JStr "tok-region") 360].
Proof.
  pose proof (interest_by_region_request (H:=region_first) "CITY" (resolved region_first)
                region_fields region_request (JStr "tok-region")) as Hw.
  assert (Hr : interest_by_region_widget (resolved region_first) = JObj region_fields)
    by (vm_compute; reflexivity).
  specialize (Hw Hr eq_refl eq_refl).
  vm_compute in Hw |- *. exact Hw.
Defined.


Lemma related_queries_short_list_witness :
  (@related_queries short_ranked (resolved short_ranked)).1 = Raise IndexError.
Proof.
  assert (Hl : related_queries_widget_list (resolved short_ranked) = w_related "x" :: [])
    by (vm_compute; reflexivity).
  assert (Hf : @ranked_fetch short_ranked (w_related "x") (resolved short_ranked)
               = (Ok (JList [JObj top_list]),
                  (@ranked_fetch short_ranked (w_related "x") (resolved short_ranked)).2))
    by (vm_compute; reflexivity).
  assert (Ht : Forall2 (@top_entry short_ranked) [JObj top_keyword]
                 [JObj (delete "formattedValue"
                          (delete "link" (<["value" := JInt 100]> top_keyword)))]).
  { constructor; [|constructor]. exists top_keyword, (JInt 100), 100.
    repeat split; try reflexivity; eexists; reflexivity. }
  exact (f_equal fst
    (related_queries_short_list (H:=short_ranked) _ _ _ _ top_list _ _ Hl Hf eq_refl Ht)).
Defined.

Lemma related_queries_without_keyword_witness :
  @related_queries region_first (set_related_queries_widget_list [w_region] fresh)
  = (Raise KeyError, set_related_queries_widget_list [w_region] fresh).
Proof.
  apply (related_queries_without_keyword (H:=region_first)
           (set_related_queries_widget_list [w_region] fresh) w_region [] KeyError);
    reflexivity.
Defined.

Lemma form_data_scraped_witness :
  form_data login_inputs "user@example.com" "secret" !! "GALX" = Some "second"
  /\ form_data login_inputs "user@example.com" "secret" !! "continue" = None.
Proof.
  split.
  - rewrite (form_data_scraped login_inputs "user@example.com" "secret" "GALX")
      by discriminate.
    vm_compute. reflexivity.
  - rewrite (form_data_scraped login_inputs "user@example.com" "secret" "continue")
      by discriminate.
    vm_compute. reflexivity.
Defined.

End MoreRuns.
